(** * HD wallet generation over a BIP44-family key object

    Shallow embedding of [py_crypto_hd_wallet/bip/hd_wallet_bip.py]:
    the class [HdWalletBip] with its constructor, [Generate], [IsWatchOnly]
    and the private helpers [__InitData] and [__SetKeys].

    The wallet object is mutable: every [_SetData] writes into the
    dictionary [m_wallet_data] at once, and an exception raised later does
    not undo the writes already made.  Methods are therefore computations
    in a state-and-exception monad whose state survives a raise. *)

From Stdlib Require Import ZArith Ascii String List.
From Stdlib.Strings Require Import Byte.
From stdpp Require Import gmap strings list fin_maps pretty.

Local Open Scope Z_scope.
Local Open Scope string_scope.

(** ** Enumerations *)

(** [bip_utils.Bip44Levels]: the depth of a key in the derivation path. *)
Inductive Bip44Levels : Type :=
  | MASTER | PURPOSE | COIN | ACCOUNT | CHANGE | ADDRESS_INDEX.

#[global] Instance Bip44Levels_eq_dec : EqDecision Bip44Levels.
Proof. solve_decision. Defined.

Definition level_depth (l : Bip44Levels) : Z :=
  match l with
  | MASTER => 0 | PURPOSE => 1 | COIN => 2
  | ACCOUNT => 3 | CHANGE => 4 | ADDRESS_INDEX => 5
  end.

(** [HdWalletBipChanges]: the two change branches; [int(change_idx)] is
    0 for the external chain and 1 for the internal one. *)
Inductive HdWalletBipChanges : Type := CHAIN_EXT | CHAIN_INT.

Definition int_of_change (c : HdWalletBipChanges) : Z :=
  match c with CHAIN_EXT => 0 | CHAIN_INT => 1 end.

(** [HdWalletBipDataTypes]: the members are those listed by the table
    [HdWalletBipConst.DATA_TYPE_TO_DICT_KEY]. *)
Inductive HdWalletBipDataTypes : Type :=
  | WALLET_NAME | COIN_NAME | SPEC_NAME | MNEMONIC | PASSPHRASE | SEED_BYTES
  | ACCOUNT_IDX | CHANGE_IDX | MASTER_KEY | PURPOSE_KEY | COIN_KEY
  | ACCOUNT_KEY | CHANGE_KEY | ADDRESS_OFF | ADDRESS.

#[global] Instance HdWalletBipDataTypes_eq_dec : EqDecision HdWalletBipDataTypes.
Proof. solve_decision. Defined.

(** [HdWalletBipConst.DATA_TYPE_TO_DICT_KEY] *)
Definition DATA_TYPE_TO_DICT_KEY (t : HdWalletBipDataTypes) : string :=
  match t with
  | WALLET_NAME => "wallet_name"
  | COIN_NAME => "coin_name"
  | SPEC_NAME => "spec_name"
  | MNEMONIC => "mnemonic"
  | PASSPHRASE => "passphrase"
  | SEED_BYTES => "seed_bytes"
  | ACCOUNT_IDX => "account_idx"
  | CHANGE_IDX => "change_idx"
  | MASTER_KEY => "master_key"
  | PURPOSE_KEY => "purpose_key"
  | COIN_KEY => "coin_key"
  | ACCOUNT_KEY => "account_key"
  | CHANGE_KEY => "change_key"
  | ADDRESS_OFF => "address_off"
  | ADDRESS => "address"
  end.

(** [Bip32KeyDataConst.KEY_INDEX_MAX_VAL] of bip_utils: [2**32 - 1]. *)
Definition KEY_INDEX_MAX_VAL : Z := 2 ^ 32 - 1.

(** ** The key object

    [Bip44Base] is the abstract base class of bip_utils whose instances
    ([Bip44], [Bip49], [Bip84], ...) the wallet wraps.  A key object is
    immutable: each derivation method returns a new object or raises.
    [B] is the type of key objects and [E] the type of the exceptions the
    library raises.  The laws record that a derivation taken from the
    expected level yields a key one level deeper. *)
Class Bip44Base (B E : Type) : Type := {
  Level : B -> Bip44Levels;
  IsPublicOnly : B -> bool;
  SpecName : B -> string;
  CoinNames_Name : B -> string;
  CoinNames_Abbreviation : B -> string;
  Purpose : B -> E + B;
  Coin : B -> E + B;
  Account : B -> Z -> E + B;
  Change : B -> HdWalletBipChanges -> E + B;
  AddressIndex : B -> Z -> E + B;
  PublicKeyData : B -> string;
  PrivateKeyData : B -> string;
  AddressString : B -> string;
  Purpose_level : forall b b',
    Level b = MASTER -> Purpose b = inr b' -> Level b' = PURPOSE;
  Coin_level : forall b b',
    Level b = PURPOSE -> Coin b = inr b' -> Level b' = COIN;
  Account_level : forall b i b',
    Level b = COIN -> Account b i = inr b' -> Level b' = ACCOUNT;
  Change_level : forall b c b',
    Level b = ACCOUNT -> Change b c = inr b' -> Level b' = CHANGE;
}.

(** ** Values stored in the wallet dictionary *)

(** Modelled from the spec: [HdWalletBipKeys] (hd_wallet_bip_keys.py is not
    among the sources).  Per the data model a visited level maps to the
    public data derived from its extended key, and to the private data if
    available. *)
Record HdWalletBipKeys : Type := {
  keys_public : string;
  keys_private : option string;
}.

(** One entry of the ADDRESS level: index, address, keys. *)
Record AddressEntry : Type := {
  entry_index : Z;
  entry_address : string;
  entry_keys : HdWalletBipKeys;
}.

(** The dictionary is [Dict[str, Any]]; these are the values the class
    stores in it. *)
Inductive Value : Type :=
  | VStr (s : string)
  | VInt (z : Z)
  | VKeys (k : HdWalletBipKeys)
  | VAddresses (l : list AddressEntry).

(** What a caller may pass as [change_idx]: a member of the enumeration, or
    any other object, which [isinstance(change_idx, HdWalletBipChanges)]
    rejects. *)
Inductive PyObject : Type :=
  | PyNone
  | PyInt (z : Z)
  | PyStr (s : string).

Inductive ChangeArg : Type :=
  | ChangeMember (c : HdWalletBipChanges)
  | ChangeOther (o : PyObject).

(** The keyword arguments of [Generate]; [None] is an absent keyword. *)
Record kwargs : Type := {
  kw_acc_idx : option Z;
  kw_change_idx : option ChangeArg;
  kw_addr_num : option Z;
  kw_addr_off : option Z;
}.

(** [kwargs.get(key, dflt)] *)
Definition kwargs_get {A : Type} (field : option A) (dflt : A) : A :=
  match field with Some v => v | None => dflt end.

(** ** Hexadecimal rendering *)

Definition hex_digit (n : N) : ascii :=
  match n with
  | 0%N => "0" | 1%N => "1" | 2%N => "2" | 3%N => "3"
  | 4%N => "4" | 5%N => "5" | 6%N => "6" | 7%N => "7"
  | 8%N => "8" | 9%N => "9" | 10%N => "a" | 11%N => "b"
  | 12%N => "c" | 13%N => "d" | 14%N => "e" | _ => "f"
  end%char.

(** Modelled from the spec: [Utils.BytesToHexString] (utils.py is not among
    the sources).  The seed is rendered as lowercase hex, two digits per
    byte. *)
Fixpoint BytesToHexString (bs : list byte) : string :=
  match bs with
  | [] => EmptyString
  | b :: rest =>
      let n := Byte.to_N b in
      String (hex_digit (N.div n 16))
        (String (hex_digit (N.modulo n 16)) (BytesToHexString rest))
  end.

(** ** The wallet *)

Section Wallet.

Context {B E : Type} `{BipB : Bip44Base B E}.

(** [bip_obj.IsLevel(level)] *)
Definition IsLevel (b : B) (l : Bip44Levels) : bool :=
  bool_decide (Level b = l).

(** The object: the wrapped key and the dictionary of [HdWalletBase]. *)
Record HdWalletBip : Type := {
  m_bip_obj : B;
  m_wallet_data : gmap string Value;
}.

(** Exceptions.  [TypeError] and [ValueError] are the ones [Generate] raises
    itself, at lines 111, 113 and 115; [BipError e] is an exception raised
    inside the key library during a derivation, whatever its Python class. *)
Inductive exn : Type :=
  | TypeError (msg : string)
  | ValueError (msg : string)
  | BipError (e : E).

(** A method body: it receives [self], returns a value or raises, and in
    both cases leaves [self] in the state reached so far. *)
Definition M (A : Type) : Type := HdWalletBip -> (exn + A) * HdWalletBip.

Definition ret {A : Type} (a : A) : M A := fun self => (inr a, self).

Definition raise {A : Type} (e : exn) : M A := fun self => (inl e, self).

Definition bind {A C : Type} (c : M A) (f : A -> M C) : M C :=
  fun self =>
    match c self with
    | (inl e, self') => (inl e, self')
    | (inr a, self') => f a self'
    end.

(** A call into the key library: its exception propagates. *)
Definition call {A : Type} (r : E + A) : M A :=
  match r with
  | inl e => raise (BipError e)
  | inr a => ret a
  end.

(** Reading the attribute [self.m_bip_obj]. *)
Definition get_bip_obj : M B := fun self => (inr (m_bip_obj self), self).

End Wallet.

Arguments HdWalletBip B : clear implicits.
Arguments exn E : clear implicits.
Arguments M B E A : clear implicits.

Declare Scope wallet_scope.
Delimit Scope wallet_scope with wallet.
Notation "x <- c ;; k" := (bind c (fun x => k))
  (at level 100, c at next level, right associativity) : wallet_scope.
Notation "c ;;; k" := (bind c (fun _ => k))
  (at level 100, right associativity) : wallet_scope.

Section Methods.

Context {B E : Type} `{BipB : Bip44Base B E}.

Local Open Scope wallet_scope.

(** Modelled from the spec: [HdWalletBase._SetData] (common/ is not among
    the sources).  The result storage is a dictionary from the symbolic
    key of the data type to the value; setting a key that is present
    overwrites it. *)
Definition _SetData (data_type : HdWalletBipDataTypes) (data_value : Value)
  : M B E unit :=
  fun self =>
    (inr tt,
     {| m_bip_obj := m_bip_obj self;
        m_wallet_data :=
          <[DATA_TYPE_TO_DICT_KEY data_type := data_value]> (m_wallet_data self) |}).

(** Modelled from the spec: [HdWalletBase.HasData] / [GetData], reading the
    dictionary through the same table. *)
Definition GetData (self : HdWalletBip B) (data_type : HdWalletBipDataTypes)
  : option Value :=
  m_wallet_data self !! DATA_TYPE_TO_DICT_KEY data_type.

Definition HasData (self : HdWalletBip B) (data_type : HdWalletBipDataTypes)
  : bool :=
  bool_decide (is_Some (GetData self data_type)).

(** Modelled from the spec: the constructor of [HdWalletBipKeys]. *)
Definition HdWalletBipKeys_new (bip_obj : B) : HdWalletBipKeys :=
  {| keys_public := PublicKeyData bip_obj;
     keys_private :=
       if IsPublicOnly bip_obj then None else Some (PrivateKeyData bip_obj) |}.

Definition AddressEntry_new (idx : Z) (bip_obj : B) : AddressEntry :=
  {| entry_index := idx;
     entry_address := AddressString bip_obj;
     entry_keys := HdWalletBipKeys_new bip_obj |}.

(** Modelled from the spec: the address enumeration of
    [HdWalletBipAddresses] (hd_wallet_bip_addr.py is not among the sources).
    For i in [offset, offset+count) the child at index i is derived from the
    change key, in ascending order and eagerly; the first derivation that
    fails aborts the enumeration. *)
Fixpoint GenerateAddressRange (changeKey : B) (offset : Z) (count : nat)
  : E + list AddressEntry :=
  match count with
  | O => inr []
  | S count' =>
      match AddressIndex changeKey offset with
      | inl e => inl e
      | inr child =>
          match GenerateAddressRange changeKey (offset + 1) count' with
          | inl e => inl e
          | inr rest => inr (AddressEntry_new offset child :: rest)
          end
      end
  end.

(** Modelled from the spec: the constructor of [HdWalletBipAddresses].  A key
    already at the address-index level is a single pre-derived address and
    no range is enumerated; otherwise the range is derived from the key. *)
Definition HdWalletBipAddresses (bip_obj : B) (addr_num addr_off : Z)
  : E + list AddressEntry :=
  if IsLevel bip_obj ADDRESS_INDEX
  then inr [AddressEntry_new addr_off bip_obj]
  else GenerateAddressRange bip_obj addr_off (Z.to_nat addr_num).

(** [HdWalletBip.__SetKeys] *)
Definition __SetKeys (data_type : HdWalletBipDataTypes) (bip_obj : B)
  : M B E unit :=
  _SetData data_type (VKeys (HdWalletBipKeys_new bip_obj)).

(** [HdWalletBip.__InitData] *)
Definition __InitData (wallet_name mnemonic passphrase : string)
    (seed_bytes : list byte) : M B E unit :=
  _SetData WALLET_NAME (VStr wallet_name) ;;;
  bip_obj <- get_bip_obj ;;
  _SetData SPEC_NAME (VStr (SpecName bip_obj)) ;;;
  _SetData COIN_NAME
    (VStr (CoinNames_Name bip_obj ++ " (" ++ CoinNames_Abbreviation bip_obj ++ ")")) ;;;
  (if negb (String.eqb mnemonic "")
   then _SetData MNEMONIC (VStr mnemonic) ;;;
        _SetData PASSPHRASE (VStr passphrase)
   else ret tt) ;;;
  (if negb (bool_decide (seed_bytes = []))
   then _SetData SEED_BYTES (VStr (BytesToHexString seed_bytes))
   else ret tt).

(** [HdWalletBip.__init__]: the base class starts with an empty dictionary,
    then the key object is kept and the data initialised.  None of the
    calls raises, so the constructor returns the object. *)
Definition HdWalletBip_init (wallet_name : string) (bip_obj : B)
    (mnemonic passphrase : string) (seed_bytes : list byte) : HdWalletBip B :=
  snd (__InitData wallet_name mnemonic passphrase seed_bytes
         {| m_bip_obj := bip_obj; m_wallet_data := ∅ |}).

(** [HdWalletBip.Generate], lines 117-152: the walk from the level of the
    wrapped key down to the addresses.  [bip_obj] is the local variable the
    source rebinds after each derivation. *)
Definition Generate_derive (acc_idx : Z) (change_idx : HdWalletBipChanges)
    (addr_num addr_off : Z) : M B E unit :=
  bip_obj <- get_bip_obj ;;
  bip_obj <- (if IsLevel bip_obj MASTER
              then __SetKeys MASTER_KEY bip_obj ;;;
                   call (Purpose bip_obj)
              else ret bip_obj) ;;
  bip_obj <- (if IsLevel bip_obj PURPOSE
              then __SetKeys PURPOSE_KEY bip_obj ;;;
                   call (Coin bip_obj)
              else ret bip_obj) ;;
  bip_obj <- (if IsLevel bip_obj COIN
              then __SetKeys COIN_KEY bip_obj ;;;
                   _SetData ACCOUNT_IDX (VInt acc_idx) ;;;
                   call (Account bip_obj acc_idx)
              else ret bip_obj) ;;
  bip_obj <- (if IsLevel bip_obj ACCOUNT
              then __SetKeys ACCOUNT_KEY bip_obj ;;;
                   _SetData CHANGE_IDX (VInt (int_of_change change_idx)) ;;;
                   call (Change bip_obj change_idx)
              else ret bip_obj) ;;
  if IsLevel bip_obj CHANGE
  then __SetKeys CHANGE_KEY bip_obj ;;;
       (if negb (addr_off =? 0)%Z
        then _SetData ADDRESS_OFF (VInt addr_off)
        else ret tt) ;;;
       addresses <- call (HdWalletBipAddresses bip_obj addr_num addr_off) ;;
       _SetData ADDRESS (VAddresses addresses)
  else addresses <- call (HdWalletBipAddresses bip_obj 1 0) ;;
       _SetData ADDRESS (VAddresses addresses).

(** [HdWalletBip.Generate]: parameters, checks (lines 103-115), then the
    walk.  The [match] is the [isinstance] test on [change_idx]. *)
Definition Generate (kw : kwargs) : M B E unit :=
  let acc_idx := kwargs_get (kw_acc_idx kw) 0 in
  let change_idx := kwargs_get (kw_change_idx kw) (ChangeMember CHAIN_EXT) in
  let addr_num := kwargs_get (kw_addr_num kw) 20 in
  let addr_off := kwargs_get (kw_addr_off kw) 0 in
  match change_idx with
  | ChangeOther _ =>
      raise (TypeError "Change index is not an enumerative of HdWalletBipChanges")
  | ChangeMember change_idx =>
      if ((addr_num <? 0) || (addr_num >? KEY_INDEX_MAX_VAL))%Z
      then raise (ValueError
        "Address number shall be greater or equal to zero and less than 2^32")
      else if ((addr_off <? 0) || (addr_off + addr_num >? KEY_INDEX_MAX_VAL))%Z
      then raise (ValueError
        "Address offset shall be greater or equal to zero and less than 2^32")
      else Generate_derive acc_idx change_idx addr_num addr_off
  end.

(** [HdWalletBip.IsWatchOnly] *)
Definition IsWatchOnly (self : HdWalletBip B) : bool :=
  IsPublicOnly (m_bip_obj self).

End Methods.

(** [Generate] called several times on one object; the caller catches an
    exception of one call and goes on with the next. *)
Definition Generate_many {B E : Type} `{BipB : Bip44Base B E}
    (calls : list kwargs) (self : HdWalletBip B) : HdWalletBip B :=
  foldl (fun self kw => snd (Generate kw self)) self calls.

(** ** A symbolic key object

    An instance of the interface in which a key is the path that leads to
    it.  It follows bip_utils in what the derivation methods check and in
    which order: the level ([Bip44DepthError]), the range of the index
    ([Bip32KeyIndex] raises [ValueError] outside [0, 2^32 - 1]; account,
    coin and purpose indices are hardened by setting bit 31 first), and
    that a hardened child needs the private key ([Bip32KeyError]). *)
Module SymbolicBip.

Record key : Type := {
  key_level : Bip44Levels;
  key_public_only : bool;
  key_path : list Z;
}.

Inductive error : Type :=
  | Bip44DepthError
  | KeyIndexValueError
  | Bip32KeyError.

Definition HardenIndex (index : Z) : Z := Z.lor index (Z.shiftl 1 31).

Definition IsHardened (index : Z) : bool := Z.testbit index 31.

Definition ChildKey (next : Bip44Levels) (index : Z) (k : key) : error + key :=
  if ((index <? 0) || (index >? KEY_INDEX_MAX_VAL))%Z then inl KeyIndexValueError
  else if IsHardened index && key_public_only k then inl Bip32KeyError
  else inr {| key_level := next;
              key_public_only := key_public_only k;
              key_path := key_path k ++ [index] |}.

Definition derive (from next : Bip44Levels) (index : Z) (k : key) : error + key :=
  if bool_decide (key_level k = from)
  then ChildKey next index k
  else inl Bip44DepthError.

Definition path_string (k : key) : string :=
  foldl (fun s i => s ++ "/" ++ pretty i) "m" (key_path k).

#[global] Instance bip : Bip44Base key error.
Proof.
  refine {|
    Level := key_level;
    IsPublicOnly := key_public_only;
    SpecName := fun _ => "BIP-0044";
    CoinNames_Name := fun _ => "Bitcoin";
    CoinNames_Abbreviation := fun _ => "BTC";
    Purpose := derive MASTER PURPOSE (HardenIndex 44);
    Coin := derive PURPOSE COIN (HardenIndex 0);
    Account := fun k acc_idx => derive COIN ACCOUNT (HardenIndex acc_idx) k;
    Change := fun k c => derive ACCOUNT CHANGE (int_of_change c) k;
    AddressIndex := fun k addr_idx => derive CHANGE ADDRESS_INDEX addr_idx k;
    PublicKeyData := fun k => "pub:" ++ path_string k;
    PrivateKeyData := fun k => "priv:" ++ path_string k;
    AddressString := fun k => "addr:" ++ path_string k;
  |};
  unfold derive, ChildKey; intros; repeat case_match; simplify_eq; reflexivity.
Defined.

(** A master key with its private part, an account-level key without it and
    an address-level key. *)
Definition master : key :=
  {| key_level := MASTER; key_public_only := false; key_path := [] |}.

Definition account_public : key :=
  {| key_level := ACCOUNT; key_public_only := true;
     key_path := [HardenIndex 44; HardenIndex 0; HardenIndex 0] |}.

Definition address_key : key :=
  {| key_level := ADDRESS_INDEX; key_public_only := false;
     key_path := [HardenIndex 44; HardenIndex 0; HardenIndex 0; 0; 7] |}.

Definition wallet (k : key) : HdWalletBip key :=
  HdWalletBip_init "wallet" k "" "" [].

Definition kw (acc_idx addr_num addr_off : Z) : kwargs :=
  {| kw_acc_idx := Some acc_idx; kw_change_idx := None;
     kw_addr_num := Some addr_num; kw_addr_off := Some addr_off |}.

Definition no_kwargs : kwargs :=
  {| kw_acc_idx := None; kw_change_idx := None;
     kw_addr_num := None; kw_addr_off := None |}.

(** The wallet of the master key after [Generate(addr_num=1)], and after
    [Generate(addr_num=1, addr_off=5)]. *)
Definition generated_once : HdWalletBip key :=
  snd (Generate (kw 0 1 0) (wallet master)).

Definition generated_off5 : HdWalletBip key :=
  snd (Generate (kw 0 1 5) (wallet master)).

(** The watch-only account wallet after [Generate(addr_num=2, addr_off=3)]. *)
Definition account_off3 : HdWalletBip key :=
  snd (Generate (kw 0 2 3) (wallet account_public)).

End SymbolicBip.


(** ** Notions used by the statements *)

Section Notions.

Context {B E : Type} `{BipB : Bip44Base B E}.

(** The parameters as [Generate] reads them, defaults included. *)
Definition arg_acc_idx (kw : kwargs) : Z := kwargs_get (kw_acc_idx kw) 0.
Definition arg_change_idx (kw : kwargs) : ChangeArg :=
  kwargs_get (kw_change_idx kw) (ChangeMember CHAIN_EXT).
Definition arg_addr_num (kw : kwargs) : Z := kwargs_get (kw_addr_num kw) 20.
Definition arg_addr_off (kw : kwargs) : Z := kwargs_get (kw_addr_off kw) 0.

(** The parameters pass the checks of lines 110-115. *)
Definition accepted (kw : kwargs) : Prop :=
  (exists c, arg_change_idx kw = ChangeMember c)
  /\ 0 <= arg_addr_num kw
  /\ 0 <= arg_addr_off kw
  /\ arg_addr_off kw + arg_addr_num kw <= 2 ^ 32 - 1.

(** The wallet with its dictionary replaced. *)
Definition with_data (self : HdWalletBip B) (d : gmap string Value)
  : HdWalletBip B :=
  {| m_bip_obj := m_bip_obj self; m_wallet_data := d |}.

(** A sequence of dictionary writes, applied first to last. *)
Definition put_all (ws : list (string * Value)) (d : gmap string Value)
  : gmap string Value :=
  foldl (fun d kv => <[kv.1 := kv.2]> d) d ws.

(** The outcome of a body that raises nothing of its own. *)
Definition outcome_of {A : Type} (r : E + A) : exn E + A :=
  match r with
  | inl e => inl (BipError e)
  | inr a => inr a
  end.

(** A body is [logged] when, for a given key object, its outcome and the
    writes it makes do not depend on what the dictionary holds, and it
    raises only what the key object raises. *)
Definition logged {A : Type} (c : M B E A) : Prop :=
  forall b, exists (r : E + A) (ws : list (string * Value)),
    forall d,
      c {| m_bip_obj := b; m_wallet_data := d |}
      = (outcome_of r, {| m_bip_obj := b; m_wallet_data := put_all ws d |}).

(** The indices of the entries stored under ADDRESS. *)
Definition address_indices (self : HdWalletBip B) : option (list Z) :=
  match GetData self ADDRESS with
  | Some (VAddresses l) => Some (map entry_index l)
  | _ => None
  end.

(** The fields a walk that starts from a key of level [l] can write: the
    key of a level and the index chosen at it are stored when the walk
    visits the level, and ADDRESS by either final branch. *)
Definition written_by_walk (l : Bip44Levels) (t : HdWalletBipDataTypes)
  : bool :=
  match t with
  | MASTER_KEY => (level_depth l <=? 0)%Z
  | PURPOSE_KEY => (level_depth l <=? 1)%Z
  | COIN_KEY | ACCOUNT_IDX => (level_depth l <=? 2)%Z
  | ACCOUNT_KEY | CHANGE_IDX => (level_depth l <=? 3)%Z
  | CHANGE_KEY | ADDRESS_OFF => (level_depth l <=? 4)%Z
  | ADDRESS => true
  | _ => false
  end.

(** The field under which the key of a level is stored. *)
Definition level_key (l : Bip44Levels) : HdWalletBipDataTypes :=
  match l with
  | MASTER => MASTER_KEY
  | PURPOSE => PURPOSE_KEY
  | COIN => COIN_KEY
  | ACCOUNT => ACCOUNT_KEY
  | CHANGE => CHANGE_KEY
  | ADDRESS_INDEX => ADDRESS
  end.

(** The fields the constructor can write. *)
Definition constructor_fields : list HdWalletBipDataTypes :=
  [WALLET_NAME; COIN_NAME; SPEC_NAME; MNEMONIC; PASSPHRASE; SEED_BYTES].

End Notions.

(** ** The monad and the dictionary *)

Section Theory.

Context {B E : Type} `{BipB : Bip44Base B E}.

Local Open Scope wallet_scope.

Lemma DATA_TYPE_TO_DICT_KEY_inj (t1 t2 : HdWalletBipDataTypes) :
  DATA_TYPE_TO_DICT_KEY t1 = DATA_TYPE_TO_DICT_KEY t2 -> t1 = t2.
Proof. destruct t1, t2; simpl; intros H; first [reflexivity | discriminate H]. Qed.

Lemma put_all_app ws1 ws2 (d : gmap string Value) :
  put_all (ws1 ++ ws2) d = put_all ws2 (put_all ws1 d).
Proof. unfold put_all. apply foldl_app. Qed.

Lemma put_all_snoc ws k v (d : gmap string Value) :
  put_all (ws ++ [(k, v)]) d = <[k := v]> (put_all ws d).
Proof. rewrite put_all_app. reflexivity. Qed.

(** A key is either written by the sequence, and then its value does not
    depend on the dictionary, or it is left as it was. *)
Lemma put_all_lookup ws (k : string) :
  (exists v, forall d : gmap string Value, put_all ws d !! k = Some v)
  \/ (forall d : gmap string Value, put_all ws d !! k = d !! k).
Proof.
  induction ws as [|[k' v'] ws IH] using rev_ind.
  - right. reflexivity.
  - destruct (decide (k' = k)) as [->|Hne].
    + left. exists v'. intros d. rewrite put_all_snoc. apply lookup_insert_eq.
    + destruct IH as [[v Hv]|Hd]; [left; exists v|right]; intros d;
        rewrite put_all_snoc, lookup_insert_ne by exact Hne; auto.
Qed.

Lemma put_all_idem ws (d : gmap string Value) :
  put_all ws (put_all ws d) = put_all ws d.
Proof.
  apply map_eq. intros k.
  destruct (put_all_lookup ws k) as [[v Hv]|Hd].
  - rewrite !Hv. reflexivity.
  - rewrite Hd. reflexivity.
Qed.

Lemma logged_ret {A} (a : A) : logged (ret a : M B E A).
Proof. intros b. exists (inr a), []. reflexivity. Qed.

Lemma logged_call {A} (r : E + A) : logged (call r : M B E A).
Proof. intros b. exists r, []. destruct r; reflexivity. Qed.

Lemma logged_SetData t v : logged (_SetData t v : M B E unit).
Proof.
  intros b. exists (inr tt), [(DATA_TYPE_TO_DICT_KEY t, v)]. reflexivity.
Qed.

Lemma logged_SetKeys t b : logged (__SetKeys t b : M B E unit).
Proof. apply logged_SetData. Qed.

Lemma logged_bind {A C} (c : M B E A) (f : A -> M B E C) :
  logged c -> (forall a, logged (f a)) -> logged (bind c f).
Proof.
  intros Hc Hf b. destruct (Hc b) as (r & ws & Hr). destruct r as [e|a].
  - exists (inl e), ws. intros d. unfold bind. rewrite Hr. reflexivity.
  - destruct (Hf a b) as (r' & ws' & Hr'). exists r', (ws ++ ws')%list.
    intros d. unfold bind. rewrite Hr. simpl. rewrite Hr', put_all_app.
    reflexivity.
Qed.

(** Reading [self.m_bip_obj] and going on: the continuation is taken at the
    key object of the wallet. *)
Lemma logged_get_bip_obj {C} (f : B -> M B E C) :
  (forall b, logged (f b)) -> logged (bind get_bip_obj f).
Proof.
  intros Hf b. destruct (Hf b b) as (r & ws & Hr). exists r, ws.
  intros d. unfold bind, get_bip_obj. simpl. apply Hr.
Qed.

Lemma logged_if {A} (c : bool) (c1 c2 : M B E A) :
  logged c1 -> logged c2 -> logged (if c then c1 else c2).
Proof. destruct c; auto. Qed.

Create HintDb logged discriminated.
#[local] Hint Resolve logged_ret logged_call logged_SetData logged_SetKeys
  logged_if : logged.

Ltac solve_logged :=
  repeat first
    [ apply logged_get_bip_obj; intros ?
    | apply logged_bind; [|intros ?]
    | apply logged_if
    | solve [auto with logged] ].

Lemma Generate_derive_logged acc_idx change_idx addr_num addr_off :
  logged (Generate_derive acc_idx change_idx addr_num addr_off).
Proof. unfold Generate_derive. solve_logged. Qed.

End Theory.

(** ** Facts about [Generate] *)

Section GenerateFacts.

Context {B E : Type} `{BipB : Bip44Base B E}.

Local Open Scope wallet_scope.

(** The three checks, in the order of the source, and what is run when they
    pass. *)
Lemma Generate_unfold (kw : kwargs) :
  match arg_change_idx kw with
  | ChangeOther _ =>
      exists msg, forall w : HdWalletBip B,
        Generate kw w = (inl (TypeError msg), w)
  | ChangeMember c =>
      if ((arg_addr_num kw <? 0) || (arg_addr_num kw >? KEY_INDEX_MAX_VAL))%Z
      then exists msg, forall w : HdWalletBip B,
             Generate kw w = (inl (ValueError msg), w)
      else if ((arg_addr_off kw <? 0)
               || (arg_addr_off kw + arg_addr_num kw >? KEY_INDEX_MAX_VAL))%Z
      then exists msg, forall w : HdWalletBip B,
             Generate kw w = (inl (ValueError msg), w)
      else forall w : HdWalletBip B,
             Generate kw w
             = Generate_derive (arg_acc_idx kw) c (arg_addr_num kw)
                 (arg_addr_off kw) w
  end.
Proof.
  unfold Generate, arg_change_idx, arg_addr_num, arg_addr_off, arg_acc_idx.
  destruct (kwargs_get (kw_change_idx kw) _); [|eexists; reflexivity].
  repeat case_match; try reflexivity; eexists; reflexivity.
Qed.

Lemma Generate_derive_run acc_idx c addr_num addr_off (w : HdWalletBip B) :
  exists (r : E + unit) ws, forall d,
    Generate_derive acc_idx c addr_num addr_off (with_data w d)
    = (outcome_of r, with_data w (put_all ws d)).
Proof.
  destruct (Generate_derive_logged acc_idx c addr_num addr_off (m_bip_obj w))
    as (r & ws & Hr).
  exists r, ws. intros d. apply Hr.
Qed.

(** Whatever the arguments, a call is a fixed outcome and a fixed sequence
    of writes, both independent of the dictionary; a call rejected by a
    check writes nothing. *)
Lemma Generate_run (kw : kwargs) (w : HdWalletBip B) :
  exists (o : exn E + unit) ws,
    (forall d, Generate kw (with_data w d) = (o, with_data w (put_all ws d)))
    /\ ((forall e, o <> inl (BipError e)) -> o <> inr tt -> ws = []).
Proof.
  pose proof (Generate_unfold kw) as HU.
  destruct (arg_change_idx kw) as [c|x].
  - destruct ((arg_addr_num kw <? 0) || (arg_addr_num kw >? KEY_INDEX_MAX_VAL))%Z.
    { destruct HU as [msg HU]. exists (inl (ValueError msg)), [].
      split; [|reflexivity]. intros d. apply HU. }
    destruct ((arg_addr_off kw <? 0)
              || (arg_addr_off kw + arg_addr_num kw >? KEY_INDEX_MAX_VAL))%Z.
    { destruct HU as [msg HU]. exists (inl (ValueError msg)), [].
      split; [|reflexivity]. intros d. apply HU. }
    destruct (Generate_derive_run (arg_acc_idx kw) c (arg_addr_num kw)
                (arg_addr_off kw) w) as (r & ws & Hr).
    exists (outcome_of r), ws. split.
    + intros d. rewrite HU. apply Hr.
    + intros Hne Hok. destruct r as [e|[]]; simpl in *; congruence.
  - destruct HU as [msg HU]. exists (inl (TypeError msg)), [].
    split; [|reflexivity]. intros d. apply HU.
Qed.

Lemma with_data_self (w : HdWalletBip B) : with_data w (m_wallet_data w) = w.
Proof. destruct w; reflexivity. Qed.

(** [Generate] never rebinds [self.m_bip_obj]. *)
Lemma Generate_bip_obj (kw : kwargs) (w : HdWalletBip B) :
  m_bip_obj (snd (Generate kw w)) = m_bip_obj w.
Proof.
  destruct (Generate_run kw w) as (o & ws & Hrun & _).
  rewrite <- (with_data_self w) at 1. rewrite Hrun. reflexivity.
Qed.

Lemma Generate_many_bip_obj (calls : list kwargs) (w : HdWalletBip B) :
  m_bip_obj (Generate_many calls w) = m_bip_obj w.
Proof.
  revert w. induction calls as [|kw calls IH]; intros w; [reflexivity|].
  change (Generate_many (kw :: calls) w)
    with (Generate_many calls (snd (Generate kw w))).
  rewrite IH. apply Generate_bip_obj.
Qed.

End GenerateFacts.

(** ** The walk down the levels *)

Section Walk.

Context {B E : Type} `{BipB : Bip44Base B E}.

Lemma IsLevel_at (b : B) (l l' : Bip44Levels) :
  Level b = l -> IsLevel b l' = bool_decide (l = l').
Proof. intros <-. reflexivity. Qed.

(** One step of symbolic execution of the walk: decide a level test whose
    key has a known level, or split on the result of a derivation, closing
    the branch in which it raised. *)
Ltac raised := let X := fresh in intros X; discriminate X.

Ltac walk_step :=
  match goal with
  | H : Level ?b = ?l |- context [IsLevel ?b ?l'] =>
      rewrite (IsLevel_at b l l' H); simpl
  | HL : Level ?b = MASTER |- context [Purpose ?b] =>
      let H := fresh "Hd" in
      destruct (Purpose b) eqn:H; simpl;
      [ raised | pose proof (Purpose_level _ _ HL H) ]
  | HL : Level ?b = PURPOSE |- context [Coin ?b] =>
      let H := fresh "Hd" in
      destruct (Coin b) eqn:H; simpl;
      [ raised | pose proof (Coin_level _ _ HL H) ]
  | HL : Level ?b = COIN |- context [Account ?b ?i] =>
      let H := fresh "Hd" in
      destruct (Account b i) eqn:H; simpl;
      [ raised | pose proof (Account_level _ _ _ HL H) ]
  | HL : Level ?b = ACCOUNT |- context [Change ?b ?c] =>
      let H := fresh "Hd" in
      destruct (Change b c) eqn:H; simpl;
      [ raised | pose proof (Change_level _ _ _ HL H) ]
  | |- context [HdWalletBipAddresses ?b ?n ?o] =>
      let H := fresh "Ha" in
      destruct (HdWalletBipAddresses b n o) eqn:H; simpl; [ raised | ]
  end.

Lemma Generate_derive_addresses acc_idx c addr_num addr_off
    (w w' : HdWalletBip B) :
  Level (m_bip_obj w) <> ADDRESS_INDEX ->
  Generate_derive acc_idx c addr_num addr_off w = (inr tt, w') ->
  exists changeKey l,
    Level changeKey = CHANGE
    /\ HdWalletBipAddresses changeKey addr_num addr_off = inr l
    /\ GetData w' ADDRESS = Some (VAddresses l)
    /\ GetData w' CHANGE_KEY = Some (VKeys (HdWalletBipKeys_new changeKey))
    /\ GetData w' ADDRESS_OFF
       = (if (addr_off =? 0)%Z then GetData w ADDRESS_OFF
          else Some (VInt addr_off)).
Proof.
  destruct w as [b d]. simpl. intros Hlvl.
  unfold Generate_derive, bind, get_bip_obj, __SetKeys, _SetData, call, ret, raise.
  simpl.
  destruct (Level b) eqn:HL; try congruence;
    destruct (addr_off =? 0)%Z eqn:Hoff; simpl.
  all: repeat walk_step.
  all: intros Heq; inversion Heq; subst; clear Heq.
  all: eexists _, _; repeat split; try eassumption.
  all: unfold GetData; simpl.
  all: repeat (rewrite lookup_insert_ne by discriminate).
  all: try apply lookup_insert_eq; reflexivity.
Qed.

(** A key at the address-index level: no level test of the walk holds, and
    the last branch stores the single address. *)
Lemma Generate_derive_address_level acc_idx c addr_num addr_off
    (w : HdWalletBip B) :
  Level (m_bip_obj w) = ADDRESS_INDEX ->
  Generate_derive acc_idx c addr_num addr_off w
  = (inr tt,
     with_data w
       (<[DATA_TYPE_TO_DICT_KEY ADDRESS :=
            VAddresses [AddressEntry_new 0 (m_bip_obj w)]]> (m_wallet_data w))).
Proof.
  destruct w as [b d]. simpl. intros HL.
  unfold Generate_derive, bind, get_bip_obj, __SetKeys, _SetData, call, ret,
    raise, HdWalletBipAddresses.
  simpl. repeat walk_step. reflexivity.
Qed.

Lemma accepted_run (kw : kwargs) :
  accepted kw ->
  exists c, arg_change_idx kw = ChangeMember c
    /\ forall w : HdWalletBip B,
         Generate kw w
         = Generate_derive (arg_acc_idx kw) c (arg_addr_num kw)
             (arg_addr_off kw) w.
Proof.
  intros ([c Hc] & Hn & Ho & Hsum). exists c. split; [exact Hc|].
  pose proof (Generate_unfold (B:=B) kw) as HU. rewrite Hc in HU.
  unfold KEY_INDEX_MAX_VAL in HU.
  destruct (Z.ltb_spec (arg_addr_num kw) 0); [lia|].
  destruct (Z.gtb_spec (arg_addr_num kw) (2 ^ 32 - 1)); [lia|].
  destruct (Z.ltb_spec (arg_addr_off kw) 0); [lia|].
  destruct (Z.gtb_spec (arg_addr_off kw + arg_addr_num kw) (2 ^ 32 - 1)); [lia|].
  exact HU.
Qed.

(** The enumeration yields one entry per index of the range, in ascending
    order, each made from the child derived at that index. *)
Lemma GenerateAddressRange_entries (b : B) (count : nat) :
  forall offset l,
    GenerateAddressRange b offset count = inr l ->
    Forall2
      (fun i e => exists child,
         AddressIndex b i = inr child /\ e = AddressEntry_new i child)
      (seqZ offset (Z.of_nat count)) l.
Proof.
  induction count as [|count IH]; intros offset l; simpl.
  - intros [= <-]. constructor.
  - destruct (AddressIndex b offset) as [e|child] eqn:Hc; [discriminate|].
    destruct (GenerateAddressRange b (offset + 1) count) as [e|rest] eqn:Hr;
      [discriminate|].
    intros [= <-]. rewrite seqZ_cons by lia.
    replace (Z.pred (Z.of_nat (S count))) with (Z.of_nat count) by lia.
    constructor; [eauto|]. apply IH. exact Hr.
Qed.

Lemma Forall2_entry_index (b : B) (idxs : list Z) (l : list AddressEntry) :
  Forall2
    (fun i e => exists child,
       AddressIndex b i = inr child /\ e = AddressEntry_new i child) idxs l ->
  map entry_index l = idxs
  /\ Forall
       (fun e => exists child,
          AddressIndex b (entry_index e) = inr child
          /\ e = AddressEntry_new (entry_index e) child) l.
Proof.
  induction 1 as [|i e idxs l (child & Hc & ->) _ [IH1 IH2]]; simpl.
  - split; constructor.
  - split; [f_equal; exact IH1|]. constructor; [|exact IH2].
    exists child. split; [exact Hc|reflexivity].
Qed.

End Walk.

(** ** The properties of the wallet *)

Section Properties.

Context {B E : Type} `{BipB : Bip44Base B E}.

Lemma HdWalletBip_init_bip_obj wallet_name (bip_obj : B) mnemonic passphrase
    seed_bytes :
  m_bip_obj (HdWalletBip_init wallet_name bip_obj mnemonic passphrase seed_bytes)
  = bip_obj.
Proof.
  unfold HdWalletBip_init, __InitData, bind, get_bip_obj, _SetData, ret.
  simpl. destruct (negb (mnemonic =? "")%string);
    destruct (negb (bool_decide (seed_bytes = []))); reflexivity.
Qed.

(** C1.  Determinism of [Generate].  For a fixed wallet state and a fixed
    parameter tuple the call is a function of the two: wallets that wrap the
    same key object raise the same exception or both succeed whatever their
    dictionaries hold, wallets in the same state end with identical
    dictionaries, and calling again with the same parameters on the wallet
    the call has left reproduces outcome and contents exactly. *)
Theorem Generate_deterministic (kw : kwargs) (w1 w2 : HdWalletBip B) :
  m_bip_obj w1 = m_bip_obj w2 ->
  fst (Generate kw w1) = fst (Generate kw w2)
  /\ (m_wallet_data w1 = m_wallet_data w2 ->
      m_wallet_data (snd (Generate kw w1)) = m_wallet_data (snd (Generate kw w2)))
  /\ Generate kw (snd (Generate kw w1)) = Generate kw w1.
Proof.
  intros Hb.
  destruct (Generate_run kw w1) as (o & ws & Hrun & _).
  assert (H1 : Generate kw w1 = (o, with_data w1 (put_all ws (m_wallet_data w1)))).
  { rewrite <- (with_data_self w1) at 1. apply Hrun. }
  assert (H2 : Generate kw w2 = (o, with_data w1 (put_all ws (m_wallet_data w2)))).
  { specialize (Hrun (m_wallet_data w2)).
    replace (with_data w1 (m_wallet_data w2)) with w2 in Hrun; [exact Hrun|].
    unfold with_data. destruct w1, w2; simpl in *; subst; reflexivity. }
  rewrite H1, H2. simpl. repeat split.
  - intros ->. reflexivity.
  - rewrite Hrun. unfold with_data. simpl. rewrite put_all_idem. reflexivity.
Qed.

(** C2.  With a change index of the enumeration, [Generate] raises its
    range error exactly when addr_num is negative, addr_off is negative or
    addr_off + addr_num exceeds 2^32 - 1.  The wallet is then as it was
    before the call, and since this holds for every key object, also for
    one whose derivations all raise, no derivation precedes the check. *)
Theorem Generate_range_error (kw : kwargs) (c : HdWalletBipChanges)
    (w : HdWalletBip B) :
  arg_change_idx kw = ChangeMember c ->
  ((exists msg, fst (Generate kw w) = inl (ValueError msg))
   <-> (arg_addr_num kw < 0 \/ arg_addr_off kw < 0
        \/ arg_addr_off kw + arg_addr_num kw > 2 ^ 32 - 1))
  /\ (forall msg, fst (Generate kw w) = inl (ValueError msg) ->
      snd (Generate kw w) = w).
Proof.
  intros Hc.
  pose proof (Generate_unfold (B:=B) kw) as HU. rewrite Hc in HU.
  unfold KEY_INDEX_MAX_VAL in HU.
  destruct (Generate_derive_run (arg_acc_idx kw) c (arg_addr_num kw)
              (arg_addr_off kw) w) as (r & ws & Hr).
  specialize (Hr (m_wallet_data w)). rewrite with_data_self in Hr.
  destruct (Z.ltb_spec (arg_addr_num kw) 0);
    destruct (Z.gtb_spec (arg_addr_num kw) (2 ^ 32 - 1));
    destruct (Z.ltb_spec (arg_addr_off kw) 0);
    destruct (Z.gtb_spec (arg_addr_off kw + arg_addr_num kw) (2 ^ 32 - 1));
    simpl in HU;
    try (destruct HU as [msg HU]; rewrite HU; simpl;
         split; [split; [intros _; lia | intros _; eauto] | reflexivity]).
  rewrite HU, Hr. simpl. split.
  - split; [|lia]. intros [msg Hm]. destruct r; discriminate Hm.
  - intros msg Hm. destruct r; discriminate Hm.
Qed.

(** C7.  [Generate] raises its change type error exactly when change_idx
    is not a member of the enumeration, and the wallet is then as it was
    before the call; as for the range error, no derivation precedes it. *)
Theorem Generate_change_type_error (kw : kwargs) (w : HdWalletBip B) :
  ((exists msg, fst (Generate kw w) = inl (TypeError msg))
   <-> (forall c, arg_change_idx kw <> ChangeMember c))
  /\ (forall msg, fst (Generate kw w) = inl (TypeError msg) ->
      snd (Generate kw w) = w).
Proof.
  pose proof (Generate_unfold (B:=B) kw) as HU.
  destruct (arg_change_idx kw) as [c|x] eqn:Hc.
  - assert (Hno : forall msg, fst (Generate kw w) <> inl (TypeError msg)).
    { intros msg.
      destruct (Generate_derive_run (arg_acc_idx kw) c (arg_addr_num kw)
                  (arg_addr_off kw) w) as (r & ws & Hr).
      specialize (Hr (m_wallet_data w)). rewrite with_data_self in Hr.
      repeat case_match;
        try (destruct HU as [msg' HU]; rewrite HU; simpl; discriminate).
      rewrite HU, Hr. simpl. destruct r; discriminate. }
    split.
    + split.
      * intros [msg Hm]. destruct (Hno msg Hm).
      * intros Hne. destruct (Hne c eq_refl).
    + intros msg Hm. destruct (Hno msg Hm).
  - destruct HU as [msg HU]. rewrite HU. simpl. split; [|reflexivity].
    split; [intros _ c; discriminate | intros _; eauto].
Qed.

(** C4, as amended.  A call that [Generate] rejects by one of its own
    checks, so that the exception is not one of the key object, leaves the
    wallet exactly as it was. *)
Theorem Generate_rejected_untouched (kw : kwargs) (w w' : HdWalletBip B)
    (e : exn E) :
  Generate kw w = (inl e, w') ->
  (forall e', e <> BipError e') ->
  w' = w.
Proof.
  intros Hg Hne.
  destruct (Generate_run kw w) as (o & ws & Hrun & Hws).
  specialize (Hrun (m_wallet_data w)). rewrite with_data_self in Hrun.
  rewrite Hrun in Hg. injection Hg as -> <-.
  rewrite Hws; [apply with_data_self | | discriminate].
  intros e' [= ->]. exact (Hne e' eq_refl).
Qed.

(** C8.  [IsWatchOnly] answers what the key object given to the
    constructor answers to [IsPublicOnly], after any number of [Generate]
    calls, raised or not. *)
Theorem IsWatchOnly_constructed_key wallet_name (bip_obj : B) mnemonic
    passphrase seed_bytes (calls : list kwargs) :
  IsWatchOnly
    (Generate_many calls
       (HdWalletBip_init wallet_name bip_obj mnemonic passphrase seed_bytes))
  = IsPublicOnly bip_obj.
Proof.
  unfold IsWatchOnly.
  rewrite Generate_many_bip_obj, HdWalletBip_init_bip_obj. reflexivity.
Qed.

(** C10.  The constructor records the passphrase exactly when the mnemonic
    argument is not the empty string, and then as given, together with the
    mnemonic; with an empty mnemonic neither field is present, whatever the
    passphrase. *)
Theorem InitData_mnemonic_gates_passphrase wallet_name (bip_obj : B)
    mnemonic passphrase seed_bytes :
  (is_Some
     (GetData
        (HdWalletBip_init wallet_name bip_obj mnemonic passphrase seed_bytes)
        PASSPHRASE)
   <-> mnemonic <> "")
  /\ (GetData
        (HdWalletBip_init wallet_name bip_obj mnemonic passphrase seed_bytes)
        MNEMONIC = None
      <-> mnemonic = "")
  /\ (mnemonic <> "" ->
      GetData
        (HdWalletBip_init wallet_name bip_obj mnemonic passphrase seed_bytes)
        MNEMONIC = Some (VStr mnemonic)
      /\ GetData
           (HdWalletBip_init wallet_name bip_obj mnemonic passphrase seed_bytes)
           PASSPHRASE = Some (VStr passphrase))
  /\ (mnemonic = "" ->
      GetData
        (HdWalletBip_init wallet_name bip_obj mnemonic passphrase seed_bytes)
        PASSPHRASE = None).
Proof.
  unfold HdWalletBip_init, __InitData, bind, get_bip_obj, _SetData, ret, GetData.
  simpl.
  destruct (String.eqb_spec mnemonic "") as [Hm|Hm];
    destruct (negb (bool_decide (seed_bytes = []))); simpl;
    repeat (rewrite lookup_insert_ne by discriminate);
    rewrite ?lookup_insert_eq, ?lookup_empty.
  all: repeat split; intros; try congruence; try discriminate; eauto.
  all: match goal with H : is_Some None |- _ => destruct H; discriminate end.
Qed.

(** The address offset after a successful call on a key at the change level
    or above: the parameter when it is not zero, and otherwise whatever the
    dictionary held before the call. *)
Lemma Generate_address_off (kw : kwargs) (w w' : HdWalletBip B) :
  accepted kw ->
  Level (m_bip_obj w) <> ADDRESS_INDEX ->
  Generate kw w = (inr tt, w') ->
  GetData w' ADDRESS_OFF
  = (if (arg_addr_off kw =? 0)%Z then GetData w ADDRESS_OFF
     else Some (VInt (arg_addr_off kw))).
Proof.
  intros Hacc Hlvl Hg.
  destruct (accepted_run kw Hacc) as (c & _ & Hrun). rewrite Hrun in Hg.
  destruct (Generate_derive_addresses _ _ _ _ _ _ Hlvl Hg)
    as (ck & l & _ & _ & _ & _ & Hoff).
  exact Hoff.
Qed.

Lemma HdWalletBip_init_no_address_off wallet_name (bip_obj : B) mnemonic
    passphrase seed_bytes :
  GetData (HdWalletBip_init wallet_name bip_obj mnemonic passphrase seed_bytes)
    ADDRESS_OFF = None.
Proof.
  unfold HdWalletBip_init, __InitData, bind, get_bip_obj, _SetData, ret, GetData.
  simpl.
  destruct (negb (mnemonic =? "")%string);
    destruct (negb (bool_decide (seed_bytes = []))); simpl;
    repeat (rewrite lookup_insert_ne by discriminate); apply lookup_empty.
Qed.

(** C9, as amended.  On a wallet that holds no address_off, as the
    constructor leaves it, a successful call on a key at the change level or
    above ends with the field present exactly when addr_off is not zero,
    and then it holds addr_off: a call with offset zero writes no field, in
    particular no explicit zero. *)
Theorem Generate_address_off_first (kw : kwargs) (w w' : HdWalletBip B) :
  accepted kw ->
  level_depth (Level (m_bip_obj w)) <= level_depth CHANGE ->
  GetData w ADDRESS_OFF = None ->
  Generate kw w = (inr tt, w') ->
  (is_Some (GetData w' ADDRESS_OFF) <-> arg_addr_off kw <> 0)
  /\ (arg_addr_off kw <> 0 ->
      GetData w' ADDRESS_OFF = Some (VInt (arg_addr_off kw))).
Proof.
  intros Hacc Hlvl Hnone Hg.
  assert (Hne : Level (m_bip_obj w) <> ADDRESS_INDEX).
  { intros Heq. rewrite Heq in Hlvl. simpl in Hlvl. lia. }
  rewrite (Generate_address_off kw w w' Hacc Hne Hg), Hnone.
  destruct (Z.eqb_spec (arg_addr_off kw) 0) as [Hz|Hz].
  - split; [|congruence]. split; [intros [v Hv]; discriminate Hv | congruence].
  - split; [|reflexivity]. split; [intros _; exact Hz | eauto].
Qed.

(** C3.  With parameters that pass the checks and a key at the change level
    or above, a call that returns has stored under ADDRESS exactly addr_num
    entries whose indices are addr_off, ..., addr_off + addr_num - 1 in this
    order, each made from the child of the change key at its index. *)
Theorem Generate_address_range (kw : kwargs) (w w' : HdWalletBip B) :
  accepted kw ->
  level_depth (Level (m_bip_obj w)) <= level_depth CHANGE ->
  Generate kw w = (inr tt, w') ->
  exists changeKey l,
    Level changeKey = CHANGE
    /\ GetData w' CHANGE_KEY = Some (VKeys (HdWalletBipKeys_new changeKey))
    /\ GetData w' ADDRESS = Some (VAddresses l)
    /\ length l = Z.to_nat (arg_addr_num kw)
    /\ map entry_index l = seqZ (arg_addr_off kw) (arg_addr_num kw)
    /\ Forall
         (fun e => exists child,
            AddressIndex changeKey (entry_index e) = inr child
            /\ e = AddressEntry_new (entry_index e) child) l.
Proof.
  intros Hacc Hlvl Hg.
  assert (Hne : Level (m_bip_obj w) <> ADDRESS_INDEX).
  { intros Heq. rewrite Heq in Hlvl. simpl in Hlvl. lia. }
  destruct (accepted_run kw Hacc) as (c & _ & Hrun). rewrite Hrun in Hg.
  destruct (Generate_derive_addresses _ _ _ _ _ _ Hne Hg)
    as (ck & l & Hck & Haddr & Hget & Hkey & _).
  exists ck, l. split; [exact Hck|]. split; [exact Hkey|]. split; [exact Hget|].
  unfold HdWalletBipAddresses in Haddr.
  rewrite (IsLevel_at _ _ _ Hck) in Haddr. simpl in Haddr.
  apply GenerateAddressRange_entries in Haddr.
  destruct Hacc as (_ & Hn & _).
  rewrite Z2Nat.id in Haddr by exact Hn.
  destruct (Forall2_entry_index _ _ _ Haddr) as [Hidx Hall].
  split; [|split; [exact Hidx | exact Hall]].
  rewrite <- (length_map entry_index), Hidx. apply length_seqZ.
Qed.

(** C6.  With parameters that pass the checks and a key at the address-index
    level, the call returns and its only write is the ADDRESS field, which
    holds the one entry built from the key itself for count 1 and offset 0:
    the outcome mentions neither addr_num nor addr_off, and every other
    field, the keys of the levels above included, is as it was. *)
Theorem Generate_address_level_key (kw : kwargs) (w : HdWalletBip B) :
  accepted kw ->
  Level (m_bip_obj w) = ADDRESS_INDEX ->
  Generate kw w
  = (inr tt,
     with_data w
       (<[DATA_TYPE_TO_DICT_KEY ADDRESS :=
            VAddresses [AddressEntry_new 0 (m_bip_obj w)]]> (m_wallet_data w)))
  /\ HdWalletBipAddresses (m_bip_obj w) 1 0
     = inr [AddressEntry_new 0 (m_bip_obj w)]
  /\ (forall t, t <> ADDRESS ->
      GetData (snd (Generate kw w)) t = GetData w t).
Proof.
  intros Hacc HL.
  destruct (accepted_run kw Hacc) as (c & _ & Hrun).
  rewrite Hrun, (Generate_derive_address_level _ _ _ _ _ HL).
  split; [reflexivity|]. split.
  - unfold HdWalletBipAddresses. rewrite (IsLevel_at _ _ _ HL). reflexivity.
  - intros t Ht. unfold GetData. simpl. apply lookup_insert_ne.
    intros Heq. apply Ht. symmetry. apply DATA_TYPE_TO_DICT_KEY_inj. exact Heq.
Qed.

End Properties.

(** ** The properties on concrete wallets *)

Lemma Generate_deterministic_witness :
  m_bip_obj (SymbolicBip.wallet SymbolicBip.master)
  = m_bip_obj SymbolicBip.generated_off5
  /\ (fst (Generate (SymbolicBip.kw 0 2 0) (SymbolicBip.wallet SymbolicBip.master))
      = fst (Generate (SymbolicBip.kw 0 2 0) SymbolicBip.generated_off5)
      /\ (m_wallet_data (SymbolicBip.wallet SymbolicBip.master)
          = m_wallet_data SymbolicBip.generated_off5 ->
          m_wallet_data
            (snd (Generate (SymbolicBip.kw 0 2 0)
                    (SymbolicBip.wallet SymbolicBip.master)))
          = m_wallet_data
              (snd (Generate (SymbolicBip.kw 0 2 0) SymbolicBip.generated_off5)))
      /\ Generate (SymbolicBip.kw 0 2 0)
           (snd (Generate (SymbolicBip.kw 0 2 0)
                   (SymbolicBip.wallet SymbolicBip.master)))
         = Generate (SymbolicBip.kw 0 2 0)
             (SymbolicBip.wallet SymbolicBip.master)).
Proof.
  split; [reflexivity|].
  apply (Generate_deterministic (SymbolicBip.kw 0 2 0)
           (SymbolicBip.wallet SymbolicBip.master) SymbolicBip.generated_off5).
  reflexivity.
Defined.

Lemma Generate_range_error_witness :
  arg_change_idx (SymbolicBip.kw 0 (-1) 0) = ChangeMember CHAIN_EXT
  /\ (((exists msg,
         fst (Generate (SymbolicBip.kw 0 (-1) 0)
                (SymbolicBip.wallet SymbolicBip.master))
         = inl (ValueError msg))
       <-> (arg_addr_num (SymbolicBip.kw 0 (-1) 0) < 0
            \/ arg_addr_off (SymbolicBip.kw 0 (-1) 0) < 0
            \/ arg_addr_off (SymbolicBip.kw 0 (-1) 0)
               + arg_addr_num (SymbolicBip.kw 0 (-1) 0) > 2 ^ 32 - 1))
      /\ (forall msg,
           fst (Generate (SymbolicBip.kw 0 (-1) 0)
                  (SymbolicBip.wallet SymbolicBip.master))
           = inl (ValueError msg) ->
           snd (Generate (SymbolicBip.kw 0 (-1) 0)
                  (SymbolicBip.wallet SymbolicBip.master))
           = SymbolicBip.wallet SymbolicBip.master)).
Proof.
  split; [reflexivity|].
  apply (Generate_range_error (SymbolicBip.kw 0 (-1) 0) CHAIN_EXT
           (SymbolicBip.wallet SymbolicBip.master)).
  reflexivity.
Defined.

(** C4: a call that fails in a derivation has already overwritten the
    dictionary.  After [Generate(addr_num=1)] on the wallet of the master
    key, [Generate(acc_idx=2**32, addr_num=1)] stores the master, purpose
    and coin keys and the account index, then [Account] raises: the account
    index is now 2^32 next to the account key and address of account 0. *)
Lemma Generate_failure_overwrites :
  fst (Generate (SymbolicBip.kw 0 1 0) (SymbolicBip.wallet SymbolicBip.master))
  = inr tt
  /\ fst (Generate (SymbolicBip.kw (2 ^ 32) 1 0) SymbolicBip.generated_once)
     = inl (BipError SymbolicBip.KeyIndexValueError)
  /\ GetData SymbolicBip.generated_once ACCOUNT_IDX = Some (VInt 0)
  /\ GetData (snd (Generate (SymbolicBip.kw (2 ^ 32) 1 0)
                     SymbolicBip.generated_once)) ACCOUNT_IDX
     = Some (VInt (2 ^ 32))
  /\ m_wallet_data (snd (Generate (SymbolicBip.kw (2 ^ 32) 1 0)
                           SymbolicBip.generated_once))
     <> m_wallet_data SymbolicBip.generated_once.
Proof.
  repeat split; try (vm_compute; reflexivity).
  intros Heq.
  apply (f_equal (fun d => d !! DATA_TYPE_TO_DICT_KEY ACCOUNT_IDX)) in Heq.
  vm_compute in Heq. discriminate Heq.
Qed.

Lemma Generate_rejected_untouched_witness :
  Generate (SymbolicBip.kw 0 (-1) 0) SymbolicBip.generated_once
  = (inl (ValueError
       "Address number shall be greater or equal to zero and less than 2^32"),
     snd (Generate (SymbolicBip.kw 0 (-1) 0) SymbolicBip.generated_once))
  /\ (forall e',
        ValueError
          "Address number shall be greater or equal to zero and less than 2^32"
        <> BipError (E:=SymbolicBip.error) e')
  /\ snd (Generate (SymbolicBip.kw 0 (-1) 0) SymbolicBip.generated_once)
     = SymbolicBip.generated_once.
Proof.
  split; [reflexivity|]. split; [discriminate|].
  apply (Generate_rejected_untouched (SymbolicBip.kw 0 (-1) 0)
           SymbolicBip.generated_once _
           (ValueError
              "Address number shall be greater or equal to zero and less than 2^32")).
  - reflexivity.
  - discriminate.
Defined.

Lemma Generate_address_range_witness :
  accepted (SymbolicBip.kw 0 3 5)
  /\ level_depth (Level (m_bip_obj (SymbolicBip.wallet SymbolicBip.master)))
     <= level_depth CHANGE
  /\ Generate (SymbolicBip.kw 0 3 5) (SymbolicBip.wallet SymbolicBip.master)
     = (inr tt,
        snd (Generate (SymbolicBip.kw 0 3 5)
               (SymbolicBip.wallet SymbolicBip.master)))
  /\ exists changeKey l,
       Level changeKey = CHANGE
       /\ GetData
            (snd (Generate (SymbolicBip.kw 0 3 5)
                    (SymbolicBip.wallet SymbolicBip.master))) CHANGE_KEY
          = Some (VKeys (HdWalletBipKeys_new changeKey))
       /\ GetData
            (snd (Generate (SymbolicBip.kw 0 3 5)
                    (SymbolicBip.wallet SymbolicBip.master))) ADDRESS
          = Some (VAddresses l)
       /\ length l = Z.to_nat (arg_addr_num (SymbolicBip.kw 0 3 5))
       /\ map entry_index l
          = seqZ (arg_addr_off (SymbolicBip.kw 0 3 5))
              (arg_addr_num (SymbolicBip.kw 0 3 5))
       /\ Forall
            (fun e => exists child,
               AddressIndex changeKey (entry_index e) = inr child
               /\ e = AddressEntry_new (entry_index e) child) l.
Proof.
  assert (Hacc : accepted (SymbolicBip.kw 0 3 5)).
  { split; [exists CHAIN_EXT; reflexivity|]. vm_compute. intuition discriminate. }
  split; [exact Hacc|].
  split; [vm_compute; discriminate|].
  split; [reflexivity|].
  apply (Generate_address_range (SymbolicBip.kw 0 3 5)
           (SymbolicBip.wallet SymbolicBip.master)).
  - exact Hacc.
  - vm_compute. discriminate.
  - reflexivity.
Defined.

Lemma Generate_address_level_key_witness :
  accepted (SymbolicBip.kw 0 3 5)
  /\ Level (m_bip_obj (SymbolicBip.wallet SymbolicBip.address_key))
     = ADDRESS_INDEX
  /\ (Generate (SymbolicBip.kw 0 3 5)
        (SymbolicBip.wallet SymbolicBip.address_key)
      = (inr tt,
         with_data (SymbolicBip.wallet SymbolicBip.address_key)
           (<[DATA_TYPE_TO_DICT_KEY ADDRESS :=
                VAddresses
                  [AddressEntry_new 0
                     (m_bip_obj (SymbolicBip.wallet SymbolicBip.address_key))]]>
              (m_wallet_data (SymbolicBip.wallet SymbolicBip.address_key))))
      /\ HdWalletBipAddresses
           (m_bip_obj (SymbolicBip.wallet SymbolicBip.address_key)) 1 0
         = inr [AddressEntry_new 0
                  (m_bip_obj (SymbolicBip.wallet SymbolicBip.address_key))]
      /\ (forall t, t <> ADDRESS ->
          GetData
            (snd (Generate (SymbolicBip.kw 0 3 5)
                    (SymbolicBip.wallet SymbolicBip.address_key))) t
          = GetData (SymbolicBip.wallet SymbolicBip.address_key) t)).
Proof.
  assert (Hacc : accepted (SymbolicBip.kw 0 3 5)).
  { split; [exists CHAIN_EXT; reflexivity|]. vm_compute. intuition discriminate. }
  split; [exact Hacc|]. split; [reflexivity|].
  apply (Generate_address_level_key (SymbolicBip.kw 0 3 5)
           (SymbolicBip.wallet SymbolicBip.address_key)).
  - exact Hacc.
  - reflexivity.
Defined.

(** C5: a second successful call does not replace everything the first one
    recorded.  On the wallet of the master key,
    [Generate(addr_num=1, addr_off=5)] followed by
    [Generate(addr_num=1, addr_off=0)] leaves address_off at 5 although the
    address now stored has index 0; the same second call on a wallet that
    was never generated records no address_off. *)
Theorem Generate_keeps_stale_address_off :
  fst (Generate (SymbolicBip.kw 0 1 5) (SymbolicBip.wallet SymbolicBip.master))
  = inr tt
  /\ fst (Generate (SymbolicBip.kw 0 1 0) SymbolicBip.generated_off5) = inr tt
  /\ GetData (snd (Generate (SymbolicBip.kw 0 1 0) SymbolicBip.generated_off5))
       ADDRESS_OFF = Some (VInt 5)
  /\ address_indices
       (snd (Generate (SymbolicBip.kw 0 1 0) SymbolicBip.generated_off5))
     = Some [0]
  /\ GetData SymbolicBip.generated_once ADDRESS_OFF = None.
Proof. repeat split; vm_compute; reflexivity. Qed.

(** C9: address_off can be present after a successful call whose addr_off
    is zero.  On the watch-only wallet of an account key,
    [Generate(addr_num=2, addr_off=3)] followed by [Generate()] with every
    parameter at its default ends with the field present. *)
Lemma Generate_default_offset_field_present :
  Level (m_bip_obj SymbolicBip.account_off3) = ACCOUNT
  /\ arg_addr_off SymbolicBip.no_kwargs = 0
  /\ fst (Generate SymbolicBip.no_kwargs SymbolicBip.account_off3) = inr tt
  /\ HasData (snd (Generate SymbolicBip.no_kwargs SymbolicBip.account_off3))
       ADDRESS_OFF = true
  /\ GetData (snd (Generate SymbolicBip.no_kwargs SymbolicBip.account_off3))
       ADDRESS_OFF = Some (VInt 3).
Proof. repeat split; vm_compute; reflexivity. Qed.

Lemma Generate_address_off_first_witness :
  accepted (SymbolicBip.kw 0 2 3)
  /\ level_depth (Level (m_bip_obj (SymbolicBip.wallet SymbolicBip.account_public)))
     <= level_depth CHANGE
  /\ GetData (SymbolicBip.wallet SymbolicBip.account_public) ADDRESS_OFF = None
  /\ Generate (SymbolicBip.kw 0 2 3)
       (SymbolicBip.wallet SymbolicBip.account_public)
     = (inr tt, SymbolicBip.account_off3)
  /\ (is_Some (GetData SymbolicBip.account_off3 ADDRESS_OFF)
      <-> arg_addr_off (SymbolicBip.kw 0 2 3) <> 0)
  /\ (arg_addr_off (SymbolicBip.kw 0 2 3) <> 0 ->
      GetData SymbolicBip.account_off3 ADDRESS_OFF
      = Some (VInt (arg_addr_off (SymbolicBip.kw 0 2 3)))).
Proof.
  assert (Hacc : accepted (SymbolicBip.kw 0 2 3)).
  { split; [exists CHAIN_EXT; reflexivity|]. vm_compute. intuition discriminate. }
  split; [exact Hacc|].
  split; [vm_compute; discriminate|].
  split; [reflexivity|]. split; [reflexivity|].
  apply (Generate_address_off_first (SymbolicBip.kw 0 2 3)
           (SymbolicBip.wallet SymbolicBip.account_public)
           SymbolicBip.account_off3).
  - exact Hacc.
  - vm_compute. discriminate.
  - reflexivity.
  - reflexivity.
Defined.

(** ** Further properties of the constructor and of [Generate] *)

Section Further.

Context {B E : Type} `{BipB : Bip44Base B E}.

(** Symbolic execution of the walk that keeps the branches in which a
    derivation raised. *)
Ltac walk_any :=
  match goal with
  | H : Level ?b = ?l |- context [IsLevel ?b ?l'] =>
      rewrite (IsLevel_at b l l' H); simpl
  | HL : Level ?b = MASTER |- context [Purpose ?b] =>
      let H := fresh "Hd" in
      destruct (Purpose b) eqn:H; simpl;
      [ | pose proof (Purpose_level _ _ HL H) ]
  | HL : Level ?b = PURPOSE |- context [Coin ?b] =>
      let H := fresh "Hd" in
      destruct (Coin b) eqn:H; simpl;
      [ | pose proof (Coin_level _ _ HL H) ]
  | HL : Level ?b = COIN |- context [Account ?b ?i] =>
      let H := fresh "Hd" in
      destruct (Account b i) eqn:H; simpl;
      [ | pose proof (Account_level _ _ _ HL H) ]
  | HL : Level ?b = ACCOUNT |- context [Change ?b ?c] =>
      let H := fresh "Hd" in
      destruct (Change b c) eqn:H; simpl;
      [ | pose proof (Change_level _ _ _ HL H) ]
  | |- context [HdWalletBipAddresses ?b ?n ?o] =>
      let H := fresh "Ha" in
      destruct (HdWalletBipAddresses b n o) eqn:H; simpl
  end.

Ltac unfold_walk :=
  unfold Generate_derive, bind, get_bip_obj, __SetKeys, _SetData, call, ret,
    raise; simpl.

Ltac lookups :=
  unfold GetData; simpl;
  repeat first
    [ rewrite lookup_insert_eq
    | rewrite lookup_insert_ne by discriminate ].

(** A call that returns has passed the checks and run the walk. *)
Lemma Generate_success_inv (kw : kwargs) (w w' : HdWalletBip B) :
  Generate kw w = (inr tt, w') ->
  accepted kw
  /\ exists c, arg_change_idx kw = ChangeMember c
       /\ Generate_derive (arg_acc_idx kw) c (arg_addr_num kw)
            (arg_addr_off kw) w = (inr tt, w').
Proof.
  intros Hg. pose proof (Generate_unfold (B:=B) kw) as HU.
  unfold accepted, KEY_INDEX_MAX_VAL in *.
  destruct (arg_change_idx kw) as [c|x].
  - destruct (Z.ltb_spec (arg_addr_num kw) 0);
      destruct (Z.gtb_spec (arg_addr_num kw) (2 ^ 32 - 1));
      destruct (Z.ltb_spec (arg_addr_off kw) 0);
      destruct (Z.gtb_spec (arg_addr_off kw + arg_addr_num kw) (2 ^ 32 - 1));
      simpl in HU;
      try (destruct HU as [msg HU]; rewrite HU in Hg; discriminate Hg).
    rewrite HU in Hg. split; [split; [eauto|lia]|]. eauto.
  - destruct HU as [msg HU]. rewrite HU in Hg. discriminate Hg.
Qed.

(** A call either is rejected by a check, leaving the wallet as it is, or
    runs the walk. *)
Lemma Generate_rejected_or_derive (kw : kwargs) (w : HdWalletBip B) :
  snd (Generate kw w) = w
  \/ exists c,
       Generate kw w
       = Generate_derive (arg_acc_idx kw) c (arg_addr_num kw)
           (arg_addr_off kw) w.
Proof.
  pose proof (Generate_unfold (B:=B) kw) as HU.
  destruct (arg_change_idx kw) as [c|x].
  - repeat case_match;
      try (destruct HU as [msg HU]; left; rewrite HU; reflexivity).
    right. exists c. apply HU.
  - destruct HU as [msg HU]. left. rewrite HU. reflexivity.
Qed.

Lemma Generate_derive_frame acc_idx c addr_num addr_off (w : HdWalletBip B)
    (t : HdWalletBipDataTypes) :
  written_by_walk (Level (m_bip_obj w)) t = false ->
  GetData (snd (Generate_derive acc_idx c addr_num addr_off w)) t
  = GetData w t.
Proof.
  destruct w as [b d]. simpl.
  destruct (Level b) eqn:HL; destruct t; simpl; intros Hw;
    try discriminate Hw; clear Hw;
    unfold_walk; destruct (addr_off =? 0)%Z; simpl;
    repeat walk_any; lookups; reflexivity.
Qed.

(** Symbolic execution of the walk along the branch in which it returns. *)
Ltac walk_ok :=
  match goal with
  | H : Level ?b = ?l |- context [IsLevel ?b ?l'] =>
      rewrite (IsLevel_at b l l' H); simpl
  | HL : Level ?b = MASTER |- context [Purpose ?b] =>
      let H := fresh "Hd" in
      destruct (Purpose b) eqn:H; simpl;
      [ let X := fresh in intros X; discriminate X
      | pose proof (Purpose_level _ _ HL H) ]
  | HL : Level ?b = PURPOSE |- context [Coin ?b] =>
      let H := fresh "Hd" in
      destruct (Coin b) eqn:H; simpl;
      [ let X := fresh in intros X; discriminate X
      | pose proof (Coin_level _ _ HL H) ]
  | HL : Level ?b = COIN |- context [Account ?b ?i] =>
      let H := fresh "Hd" in
      destruct (Account b i) eqn:H; simpl;
      [ let X := fresh in intros X; discriminate X
      | pose proof (Account_level _ _ _ HL H) ]
  | HL : Level ?b = ACCOUNT |- context [Change ?b ?c] =>
      let H := fresh "Hd" in
      destruct (Change b c) eqn:H; simpl;
      [ let X := fresh in intros X; discriminate X
      | pose proof (Change_level _ _ _ HL H) ]
  | |- context [HdWalletBipAddresses ?b ?n ?o] =>
      let H := fresh "Ha" in
      destruct (HdWalletBipAddresses b n o) eqn:H; simpl;
      [ let X := fresh in intros X; discriminate X | ]
  end.

Lemma Generate_derive_success_fields acc_idx c addr_num addr_off
    (w w' : HdWalletBip B) (t : HdWalletBipDataTypes) :
  Generate_derive acc_idx c addr_num addr_off w = (inr tt, w') ->
  written_by_walk (Level (m_bip_obj w)) t = true ->
  t <> ADDRESS_OFF ->
  is_Some (GetData w' t).
Proof.
  destruct w as [b d]. simpl. intros Hg Hw Ht. revert Hg.
  destruct (Level b) eqn:HL; destruct t; simpl in Hw;
    try discriminate Hw; try congruence; clear Hw Ht;
    unfold_walk; destruct (addr_off =? 0)%Z; simpl;
    repeat walk_ok; intros [= <-]; lookups; eauto.
Qed.

Lemma Generate_derive_failure_address acc_idx c addr_num addr_off
    (w w' : HdWalletBip B) (e : exn E) :
  Generate_derive acc_idx c addr_num addr_off w = (inl e, w') ->
  GetData w' ADDRESS = GetData w ADDRESS.
Proof.
  destruct w as [b d]. simpl.
  destruct (Level b) eqn:HL;
    unfold_walk; destruct (addr_off =? 0)%Z; simpl;
    repeat walk_any; intros [= <- <-]; lookups; reflexivity.
Qed.

Lemma Generate_many_app (calls1 calls2 : list kwargs) (w : HdWalletBip B) :
  Generate_many (calls1 ++ calls2) w
  = Generate_many calls2 (Generate_many calls1 w).
Proof. unfold Generate_many. apply foldl_app. Qed.

Lemma Generate_frame_any (kw : kwargs) (w : HdWalletBip B)
    (t : HdWalletBipDataTypes) :
  written_by_walk (Level (m_bip_obj w)) t = false ->
  GetData (snd (Generate kw w)) t = GetData w t.
Proof.
  intros Hw. destruct (Generate_rejected_or_derive kw w) as [->|[c ->]].
  - reflexivity.
  - apply Generate_derive_frame. exact Hw.
Qed.

(** X1.  Whatever its arguments and whether it returns or raises, a call of
    [Generate] leaves untouched every field that a walk from the level of
    the wrapped key cannot write: the fields of the constructor, and the
    keys and indices of the levels above the wrapped key. *)
Theorem Generate_frame (kw : kwargs) (w : HdWalletBip B)
    (t : HdWalletBipDataTypes) :
  written_by_walk (Level (m_bip_obj w)) t = false ->
  GetData (snd (Generate kw w)) t = GetData w t.
Proof. apply Generate_frame_any. Qed.

(** X2.  The fields the constructor can write are never changed by
    [Generate]: after any list of calls each of them reads as it did on the
    wallet as constructed. *)
Theorem Generate_many_keeps_constructor_fields wallet_name (bip_obj : B)
    mnemonic passphrase seed_bytes (calls : list kwargs) :
  Forall
    (fun t =>
       GetData
         (Generate_many calls
            (HdWalletBip_init wallet_name bip_obj mnemonic passphrase seed_bytes))
         t
       = GetData
           (HdWalletBip_init wallet_name bip_obj mnemonic passphrase seed_bytes)
           t)
    constructor_fields.
Proof.
  generalize (HdWalletBip_init wallet_name bip_obj mnemonic passphrase
                seed_bytes) as w.
  intros w. apply Forall_forall. intros t Ht.
  induction calls as [|kw calls IH] using rev_ind; [reflexivity|].
  rewrite Generate_many_app. simpl. rewrite <- IH.
  apply Generate_frame_any.
  unfold constructor_fields in Ht.
  repeat (apply elem_of_cons in Ht as [->|Ht]; [reflexivity|]).
  apply elem_of_nil in Ht. destruct Ht.
Qed.

(** X3.  After a call that returns, every field that a walk from the level
    of the wrapped key writes is present, the address offset apart: the key
    of each level from that of the wrapped key down to the change level, the
    account index and the change index when their levels are visited, and
    the addresses. *)
Theorem Generate_success_fields (kw : kwargs) (w w' : HdWalletBip B)
    (t : HdWalletBipDataTypes) :
  Generate kw w = (inr tt, w') ->
  written_by_walk (Level (m_bip_obj w)) t = true ->
  t <> ADDRESS_OFF ->
  is_Some (GetData w' t).
Proof.
  intros Hg Hw Ht.
  destruct (Generate_success_inv kw w w' Hg) as (_ & c & _ & Hd).
  exact (Generate_derive_success_fields _ _ _ _ _ _ _ Hd Hw Ht).
Qed.

(** X4.  A call that returns overwrites what an earlier call left: if
    [Generate] with parameters kw2 returns on a wallet, it also returns
    after any earlier call with parameters kw1, returned or raised, and every
    field other than the address offset then reads as if the earlier call
    had not been made. *)
Theorem Generate_overwrites (kw1 kw2 : kwargs) (w w2 : HdWalletBip B) :
  Generate kw2 w = (inr tt, w2) ->
  fst (Generate kw2 (snd (Generate kw1 w))) = inr tt
  /\ forall t, t <> ADDRESS_OFF ->
       GetData (snd (Generate kw2 (snd (Generate kw1 w)))) t = GetData w2 t.
Proof.
  intros Hg.
  destruct (Generate_run kw2 w) as (o & ws & Hrun & _).
  pose proof (Hrun (m_wallet_data w)) as H0. rewrite with_data_self, Hg in H0.
  injection H0 as <- ->.
  pose proof (Generate_bip_obj kw1 w) as Hb.
  pose proof (Generate_frame_any kw1 w) as Hf.
  destruct (snd (Generate kw1 w)) as [b1 d1]. simpl in Hb. subst b1.
  change {| m_bip_obj := m_bip_obj w; m_wallet_data := d1 |}
    with (with_data w d1) in *.
  rewrite Hrun. simpl. split; [reflexivity|].
  intros t Ht. unfold GetData. simpl.
  destruct (put_all_lookup ws (DATA_TYPE_TO_DICT_KEY t)) as [[v Hv]|Hd].
  - rewrite !Hv. reflexivity.
  - rewrite !Hd.
    destruct (written_by_walk (Level (m_bip_obj w)) t) eqn:Hw.
    + pose proof (Hrun ∅) as He.
      destruct (Generate_success_inv kw2 _ _ He) as (_ & c & _ & Hder).
      pose proof (Generate_derive_success_fields _ _ _ _ _ _ t Hder Hw Ht)
        as [v Hv].
      unfold GetData in Hv. simpl in Hv. rewrite Hd, lookup_empty in Hv.
      discriminate Hv.
    + apply (Hf t Hw).
Qed.

(** X5.  The addresses are stored last: a call that raises, at a check or
    in any derivation, leaves the ADDRESS field as it was. *)
Theorem Generate_failure_keeps_address (kw : kwargs) (w w' : HdWalletBip B)
    (e : exn E) :
  Generate kw w = (inl e, w') ->
  GetData w' ADDRESS = GetData w ADDRESS.
Proof.
  intros Hg. destruct (Generate_rejected_or_derive kw w) as [Hr|[c Hr]].
  - rewrite Hg in Hr. simpl in Hr. rewrite Hr. reflexivity.
  - rewrite Hr in Hg. exact (Generate_derive_failure_address _ _ _ _ _ _ _ Hg).
Qed.

(** X6.  On a wallet of a master key a call that returns has derived
    purpose, coin, account and change key in this order, each from the one
    before, with the account index and the change index of the call, and
    has stored each of the five keys and the two indices under its own
    field and the addresses of the change key under ADDRESS. *)
Theorem Generate_master_chain (kw : kwargs) (w w' : HdWalletBip B) :
  Level (m_bip_obj w) = MASTER ->
  Generate kw w = (inr tt, w') ->
  exists c purpose coin account change l,
    arg_change_idx kw = ChangeMember c
    /\ Purpose (m_bip_obj w) = inr purpose
    /\ Coin purpose = inr coin
    /\ Account coin (arg_acc_idx kw) = inr account
    /\ Change account c = inr change
    /\ HdWalletBipAddresses change (arg_addr_num kw) (arg_addr_off kw) = inr l
    /\ GetData w' MASTER_KEY = Some (VKeys (HdWalletBipKeys_new (m_bip_obj w)))
    /\ GetData w' PURPOSE_KEY = Some (VKeys (HdWalletBipKeys_new purpose))
    /\ GetData w' COIN_KEY = Some (VKeys (HdWalletBipKeys_new coin))
    /\ GetData w' ACCOUNT_IDX = Some (VInt (arg_acc_idx kw))
    /\ GetData w' ACCOUNT_KEY = Some (VKeys (HdWalletBipKeys_new account))
    /\ GetData w' CHANGE_IDX = Some (VInt (int_of_change c))
    /\ GetData w' CHANGE_KEY = Some (VKeys (HdWalletBipKeys_new change))
    /\ GetData w' ADDRESS = Some (VAddresses l).
Proof.
  intros HL Hg.
  destruct (Generate_success_inv kw w w' Hg) as (_ & c & Hc & Hd).
  exists c. revert Hd. destruct w as [b d]. simpl in HL.
  unfold_walk. destruct (arg_addr_off kw =? 0)%Z; simpl;
    repeat walk_ok; intros [= <-];
    eexists _, _, _, _, _; repeat split; try eassumption;
    lookups; reflexivity.
Qed.

(** X7.  On a wallet of a master key, parameters that pass the checks and
    derivations that all succeed make the call return: nothing but a check
    or the key object makes [Generate] raise. *)
Theorem Generate_master_returns (kw : kwargs) (w : HdWalletBip B)
    (c : HdWalletBipChanges) (purpose coin account change : B)
    (l : list AddressEntry) :
  accepted kw ->
  arg_change_idx kw = ChangeMember c ->
  Level (m_bip_obj w) = MASTER ->
  Purpose (m_bip_obj w) = inr purpose ->
  Coin purpose = inr coin ->
  Account coin (arg_acc_idx kw) = inr account ->
  Change account c = inr change ->
  HdWalletBipAddresses change (arg_addr_num kw) (arg_addr_off kw) = inr l ->
  fst (Generate kw w) = inr tt.
Proof.
  intros Hacc Hc HL Hp Hco Ha Hch Hl.
  destruct (accepted_run kw Hacc) as (c' & Hc' & Hrun).
  rewrite Hc in Hc'. injection Hc' as <-. rewrite Hrun.
  pose proof (Purpose_level _ _ HL Hp) as HLp.
  pose proof (Coin_level _ _ HLp Hco) as HLco.
  pose proof (Account_level _ _ _ HLco Ha) as HLa.
  pose proof (Change_level _ _ _ HLa Hch) as HLch.
  destruct w as [b d]. simpl in *. unfold_walk.
  rewrite (IsLevel_at _ _ _ HL); simpl. rewrite Hp; simpl.
  rewrite (IsLevel_at _ _ _ HLp); simpl. rewrite Hco; simpl.
  rewrite (IsLevel_at _ _ _ HLco); simpl. rewrite Ha; simpl.
  rewrite (IsLevel_at _ _ _ HLa); simpl. rewrite Hch; simpl.
  rewrite (IsLevel_at _ _ _ HLch); simpl.
  destruct (arg_addr_off kw =? 0)%Z; simpl; rewrite Hl; reflexivity.
Qed.

(** X8.  The first thing the walk stores is the wrapped key itself, under
    the field of its own level, before any derivation: with parameters that
    pass the checks and a key at the change level or above, that field holds
    the wrapped key after the call, returned or raised. *)
Theorem Generate_records_wrapped_key (kw : kwargs) (w : HdWalletBip B) :
  accepted kw ->
  level_depth (Level (m_bip_obj w)) <= level_depth CHANGE ->
  GetData (snd (Generate kw w)) (level_key (Level (m_bip_obj w)))
  = Some (VKeys (HdWalletBipKeys_new (m_bip_obj w))).
Proof.
  intros Hacc Hlvl.
  destruct (accepted_run kw Hacc) as (c & _ & Hrun). rewrite Hrun.
  destruct w as [b d]. simpl in *.
  destruct (Level b) eqn:HL; simpl in Hlvl; try lia; clear Hlvl;
    unfold_walk; destruct (arg_addr_off kw =? 0)%Z; simpl;
    repeat walk_any; lookups; reflexivity.
Qed.

(** X9.  A call that returns records the account index exactly as it was
    passed when the walk started at the coin level or above, and the change
    index as the integer of the enumeration member, 0 or 1, when it started
    at the account level or above. *)
Theorem Generate_records_indices (kw : kwargs) (w w' : HdWalletBip B)
    (c : HdWalletBipChanges) :
  arg_change_idx kw = ChangeMember c ->
  Generate kw w = (inr tt, w') ->
  (level_depth (Level (m_bip_obj w)) <= level_depth COIN ->
   GetData w' ACCOUNT_IDX = Some (VInt (arg_acc_idx kw)))
  /\ (level_depth (Level (m_bip_obj w)) <= level_depth ACCOUNT ->
      GetData w' CHANGE_IDX = Some (VInt (int_of_change c))
      /\ (int_of_change c = 0 \/ int_of_change c = 1)).
Proof.
  intros Hc Hg.
  destruct (Generate_success_inv kw w w' Hg) as (_ & c' & Hc' & Hd).
  rewrite Hc in Hc'. injection Hc' as <-.
  revert Hd. destruct w as [b d]. simpl.
  assert (Hi : int_of_change c = 0 \/ int_of_change c = 1)
    by (destruct c; auto).
  destruct (Level b) eqn:HL;
    unfold_walk; destruct (arg_addr_off kw =? 0)%Z; simpl;
    repeat walk_ok; intros [= <-];
    (split; [intros Hlvl | intros Hlvl; split; [|exact Hi]]);
    simpl in Hlvl; try lia; lookups; reflexivity.
Qed.

(** X10.  On a wallet whose key is at the account level or below, the
    account index is not used: calls that differ only in acc_idx have the
    same outcome and leave the same wallet. *)
Theorem Generate_ignores_acc_idx (acc1 acc2 : option Z)
    (change_idx : option ChangeArg) (addr_num addr_off : option Z)
    (w : HdWalletBip B) :
  level_depth ACCOUNT <= level_depth (Level (m_bip_obj w)) ->
  Generate {| kw_acc_idx := acc1; kw_change_idx := change_idx;
              kw_addr_num := addr_num; kw_addr_off := addr_off |} w
  = Generate {| kw_acc_idx := acc2; kw_change_idx := change_idx;
                kw_addr_num := addr_num; kw_addr_off := addr_off |} w.
Proof.
  intros Hlvl. unfold Generate. simpl.
  destruct (kwargs_get change_idx _) as [c|x]; [|reflexivity].
  repeat case_match; try reflexivity.
  destruct w as [b d]. simpl in Hlvl.
  destruct (Level b) eqn:HL; simpl in Hlvl; try lia;
    unfold_walk; repeat (rewrite (IsLevel_at _ _ _ HL); simpl); reflexivity.
Qed.

(** X11.  On a wallet whose key is at the change level or below, the member
    of the enumeration passed as change_idx is not used: calls that differ
    only in it have the same outcome and leave the same wallet. *)
Theorem Generate_ignores_change_idx (acc_idx : option Z)
    (c1 c2 : HdWalletBipChanges) (addr_num addr_off : option Z)
    (w : HdWalletBip B) :
  level_depth CHANGE <= level_depth (Level (m_bip_obj w)) ->
  Generate {| kw_acc_idx := acc_idx; kw_change_idx := Some (ChangeMember c1);
              kw_addr_num := addr_num; kw_addr_off := addr_off |} w
  = Generate {| kw_acc_idx := acc_idx; kw_change_idx := Some (ChangeMember c2);
                kw_addr_num := addr_num; kw_addr_off := addr_off |} w.
Proof.
  intros Hlvl. unfold Generate. simpl.
  repeat case_match; try reflexivity.
  destruct w as [b d]. simpl in Hlvl.
  destruct (Level b) eqn:HL; simpl in Hlvl; try lia;
    unfold_walk; repeat (rewrite (IsLevel_at _ _ _ HL); simpl); reflexivity.
Qed.

Lemma Generate_unaccepted (kw : kwargs) (w : HdWalletBip B) :
  snd (Generate kw w) = w \/ accepted kw.
Proof.
  pose proof (Generate_unfold (B:=B) kw) as HU.
  unfold accepted, KEY_INDEX_MAX_VAL in *.
  destruct (arg_change_idx kw) as [c|x].
  - destruct (Z.ltb_spec (arg_addr_num kw) 0);
      destruct (Z.gtb_spec (arg_addr_num kw) (2 ^ 32 - 1));
      destruct (Z.ltb_spec (arg_addr_off kw) 0);
      destruct (Z.gtb_spec (arg_addr_off kw + arg_addr_num kw) (2 ^ 32 - 1));
      simpl in HU;
      try (destruct HU as [msg HU]; left; rewrite HU; reflexivity).
    right. split; [eauto|lia].
  - destruct HU as [msg HU]. left. rewrite HU. reflexivity.
Qed.

(** X12.  The checks keep every derived index a valid key index: after a
    call that returns on a key at the change level or above, ADDRESS holds
    entries whose indices all lie in [0, 2^32 - 2], below
    KEY_INDEX_MAX_VAL. *)
Theorem Generate_indices_below_max (kw : kwargs) (w w' : HdWalletBip B) :
  level_depth (Level (m_bip_obj w)) <= level_depth CHANGE ->
  Generate kw w = (inr tt, w') ->
  exists idxs,
    address_indices w' = Some idxs
    /\ Forall (fun i => 0 <= i < KEY_INDEX_MAX_VAL) idxs.
Proof.
  intros Hlvl Hg.
  assert (Hne : Level (m_bip_obj w) <> ADDRESS_INDEX).
  { intros Heq. rewrite Heq in Hlvl. simpl in Hlvl. lia. }
  destruct (Generate_success_inv kw w w' Hg) as (Hacc & c & _ & Hd).
  destruct (Generate_derive_addresses _ _ _ _ _ _ Hne Hd)
    as (ck & l & Hck & Haddr & Hget & _).
  unfold HdWalletBipAddresses in Haddr.
  rewrite (IsLevel_at _ _ _ Hck) in Haddr. simpl in Haddr.
  apply GenerateAddressRange_entries in Haddr.
  destruct Hacc as (_ & Hn & Ho & Hsum).
  rewrite Z2Nat.id in Haddr by exact Hn.
  destruct (Forall2_entry_index _ _ _ Haddr) as [Hidx _].
  exists (map entry_index l). split.
  - unfold address_indices. rewrite Hget. reflexivity.
  - rewrite Hidx. apply Forall_forall. intros i Hi.
    apply elem_of_seqZ in Hi. unfold KEY_INDEX_MAX_VAL. lia.
Qed.

(** X13.  The table of dictionary keys gives each data type a key of its
    own: two data types share a key only if they are the same. *)
Theorem DATA_TYPE_TO_DICT_KEY_distinct (t1 t2 : HdWalletBipDataTypes) :
  DATA_TYPE_TO_DICT_KEY t1 = DATA_TYPE_TO_DICT_KEY t2 <-> t1 = t2.
Proof.
  split; [apply DATA_TYPE_TO_DICT_KEY_inj | intros ->; reflexivity].
Qed.

(** X14.  What a wallet holds as constructed: always the wallet, coin and
    specification names; mnemonic and passphrase exactly when the mnemonic
    is not empty; the seed exactly when it is not empty; and no key, index
    or address field. *)
Theorem HdWalletBip_init_fields wallet_name (bip_obj : B) mnemonic passphrase
    seed_bytes (t : HdWalletBipDataTypes) :
  is_Some
    (GetData
       (HdWalletBip_init wallet_name bip_obj mnemonic passphrase seed_bytes) t)
  <-> (t = WALLET_NAME \/ t = SPEC_NAME \/ t = COIN_NAME
       \/ (mnemonic <> "" /\ (t = MNEMONIC \/ t = PASSPHRASE))
       \/ (seed_bytes <> [] /\ t = SEED_BYTES)).
Proof.
  unfold HdWalletBip_init, __InitData, bind, get_bip_obj, _SetData, ret.
  simpl.
  destruct (String.eqb_spec mnemonic "") as [Hm|Hm];
    destruct (bool_decide_reflect (seed_bytes = [])) as [Hs|Hs];
    destruct t; lookups; rewrite ?lookup_empty;
    (split;
     [ intros [v Hv]; first [discriminate Hv | tauto]
     | intros Hor; first [eexists; reflexivity | exfalso; intuition congruence] ]).
Qed.

(** X15.  A call with parameters that do not pass the checks is a no-op in
    a sequence of calls: dropping it from the sequence leaves the same
    wallet. *)
Theorem Generate_many_skips_rejected (calls1 calls2 : list kwargs)
    (kw : kwargs) (w : HdWalletBip B) :
  ~ accepted kw ->
  Generate_many (calls1 ++ kw :: calls2) w = Generate_many (calls1 ++ calls2) w.
Proof.
  intros Hna. rewrite !Generate_many_app.
  change (Generate_many (kw :: calls2) (Generate_many calls1 w))
    with (Generate_many calls2 (snd (Generate kw (Generate_many calls1 w)))).
  destruct (Generate_unaccepted kw (Generate_many calls1 w)) as [->|Hacc].
  - reflexivity.
  - destruct (Hna Hacc).
Qed.

(** X16.  On a wallet of an account key, as a watch-only wallet is, the
    outcome of a call that passes the checks is decided by two steps only:
    the change derivation and then the address enumeration.  The call
    raises the exception of the first of the two that raises, and returns
    when both succeed. *)
Theorem Generate_account_outcome (kw : kwargs) (w : HdWalletBip B)
    (c : HdWalletBipChanges) :
  accepted kw ->
  arg_change_idx kw = ChangeMember c ->
  Level (m_bip_obj w) = ACCOUNT ->
  fst (Generate kw w)
  = match Change (m_bip_obj w) c with
    | inl e => inl (BipError e)
    | inr change =>
        match HdWalletBipAddresses change (arg_addr_num kw) (arg_addr_off kw) with
        | inl e => inl (BipError e)
        | inr _ => inr tt
        end
    end.
Proof.
  intros Hacc Hc HL.
  destruct (accepted_run kw Hacc) as (c' & Hc' & Hrun).
  rewrite Hc in Hc'. injection Hc' as <-. rewrite Hrun.
  destruct w as [b d]. simpl in *. unfold_walk.
  repeat (rewrite (IsLevel_at _ _ _ HL); simpl).
  destruct (Change b c) as [e|change] eqn:Hch; simpl; [reflexivity|].
  pose proof (Change_level _ _ _ HL Hch) as HLch.
  rewrite (IsLevel_at _ _ _ HLch); simpl.
  destruct (arg_addr_off kw =? 0)%Z; simpl;
    destruct (HdWalletBipAddresses change (arg_addr_num kw) (arg_addr_off kw));
    reflexivity.
Qed.

End Further.

(** ** The further properties on concrete wallets *)

Lemma Generate_frame_witness :
  written_by_walk
    (Level (m_bip_obj (SymbolicBip.wallet SymbolicBip.account_public)))
    MASTER_KEY = false
  /\ GetData
       (snd (Generate (SymbolicBip.kw 0 2 3)
               (SymbolicBip.wallet SymbolicBip.account_public))) MASTER_KEY
     = GetData (SymbolicBip.wallet SymbolicBip.account_public) MASTER_KEY.
Proof.
  split; [reflexivity|].
  apply (Generate_frame (SymbolicBip.kw 0 2 3)
           (SymbolicBip.wallet SymbolicBip.account_public) MASTER_KEY).
  reflexivity.
Defined.

Lemma Generate_success_fields_witness :
  Generate (SymbolicBip.kw 0 1 0) (SymbolicBip.wallet SymbolicBip.master)
  = (inr tt, SymbolicBip.generated_once)
  /\ is_Some (GetData SymbolicBip.generated_once PURPOSE_KEY).
Proof.
  split; [reflexivity|].
  apply (Generate_success_fields (SymbolicBip.kw 0 1 0)
           (SymbolicBip.wallet SymbolicBip.master) SymbolicBip.generated_once
           PURPOSE_KEY).
  - reflexivity.
  - reflexivity.
  - discriminate.
Defined.

Lemma Generate_overwrites_witness :
  Generate (SymbolicBip.kw 0 1 0) (SymbolicBip.wallet SymbolicBip.master)
  = (inr tt, SymbolicBip.generated_once)
  /\ fst (Generate (SymbolicBip.kw 0 1 0)
            (snd (Generate (SymbolicBip.kw (2 ^ 32) 1 5)
                    (SymbolicBip.wallet SymbolicBip.master))))
     = inr tt
  /\ forall t, t <> ADDRESS_OFF ->
       GetData
         (snd (Generate (SymbolicBip.kw 0 1 0)
                 (snd (Generate (SymbolicBip.kw (2 ^ 32) 1 5)
                         (SymbolicBip.wallet SymbolicBip.master))))) t
       = GetData SymbolicBip.generated_once t.
Proof.
  split; [reflexivity|].
  apply (Generate_overwrites (SymbolicBip.kw (2 ^ 32) 1 5)
           (SymbolicBip.kw 0 1 0) (SymbolicBip.wallet SymbolicBip.master)
           SymbolicBip.generated_once).
  reflexivity.
Defined.

Lemma Generate_failure_keeps_address_witness :
  Generate (SymbolicBip.kw (2 ^ 32) 1 0) SymbolicBip.generated_once
  = (inl (BipError SymbolicBip.KeyIndexValueError),
     snd (Generate (SymbolicBip.kw (2 ^ 32) 1 0) SymbolicBip.generated_once))
  /\ GetData
       (snd (Generate (SymbolicBip.kw (2 ^ 32) 1 0) SymbolicBip.generated_once))
       ADDRESS
     = GetData SymbolicBip.generated_once ADDRESS.
Proof.
  split; [reflexivity|].
  apply (Generate_failure_keeps_address (SymbolicBip.kw (2 ^ 32) 1 0)
           SymbolicBip.generated_once _
           (BipError SymbolicBip.KeyIndexValueError)).
  reflexivity.
Defined.

Lemma Generate_master_chain_witness :
  Level (m_bip_obj (SymbolicBip.wallet SymbolicBip.master)) = MASTER
  /\ exists c purpose coin account change l,
       arg_change_idx (SymbolicBip.kw 7 1 0) = ChangeMember c
       /\ Purpose (m_bip_obj (SymbolicBip.wallet SymbolicBip.master))
          = inr purpose
       /\ Coin purpose = inr coin
       /\ Account coin (arg_acc_idx (SymbolicBip.kw 7 1 0)) = inr account
       /\ Change account c = inr change
       /\ HdWalletBipAddresses change (arg_addr_num (SymbolicBip.kw 7 1 0))
            (arg_addr_off (SymbolicBip.kw 7 1 0)) = inr l
       /\ GetData
            (snd (Generate (SymbolicBip.kw 7 1 0)
                    (SymbolicBip.wallet SymbolicBip.master))) MASTER_KEY
          = Some (VKeys (HdWalletBipKeys_new
                           (m_bip_obj (SymbolicBip.wallet SymbolicBip.master))))
       /\ GetData
            (snd (Generate (SymbolicBip.kw 7 1 0)
                    (SymbolicBip.wallet SymbolicBip.master))) PURPOSE_KEY
          = Some (VKeys (HdWalletBipKeys_new purpose))
       /\ GetData
            (snd (Generate (SymbolicBip.kw 7 1 0)
                    (SymbolicBip.wallet SymbolicBip.master))) COIN_KEY
          = Some (VKeys (HdWalletBipKeys_new coin))
       /\ GetData
            (snd (Generate (SymbolicBip.kw 7 1 0)
                    (SymbolicBip.wallet SymbolicBip.master))) ACCOUNT_IDX
          = Some (VInt (arg_acc_idx (SymbolicBip.kw 7 1 0)))
       /\ GetData
            (snd (Generate (SymbolicBip.kw 7 1 0)
                    (SymbolicBip.wallet SymbolicBip.master))) ACCOUNT_KEY
          = Some (VKeys (HdWalletBipKeys_new account))
       /\ GetData
            (snd (Generate (SymbolicBip.kw 7 1 0)
                    (SymbolicBip.wallet SymbolicBip.master))) CHANGE_IDX
          = Some (VInt (int_of_change c))
       /\ GetData
            (snd (Generate (SymbolicBip.kw 7 1 0)
                    (SymbolicBip.wallet SymbolicBip.master))) CHANGE_KEY
          = Some (VKeys (HdWalletBipKeys_new change))
       /\ GetData
            (snd (Generate (SymbolicBip.kw 7 1 0)
                    (SymbolicBip.wallet SymbolicBip.master))) ADDRESS
          = Some (VAddresses l).
Proof.
  split; [reflexivity|].
  apply (Generate_master_chain (SymbolicBip.kw 7 1 0)
           (SymbolicBip.wallet SymbolicBip.master)).
  - reflexivity.
  - reflexivity.
Defined.

Lemma Generate_master_returns_witness :
  accepted (SymbolicBip.kw 7 2 5)
  /\ Level (m_bip_obj (SymbolicBip.wallet SymbolicBip.master)) = MASTER
  /\ fst (Generate (SymbolicBip.kw 7 2 5) (SymbolicBip.wallet SymbolicBip.master))
     = inr tt.
Proof.
  assert (Hacc : accepted (SymbolicBip.kw 7 2 5)).
  { split; [exists CHAIN_EXT; reflexivity|]. vm_compute. intuition discriminate. }
  split; [exact Hacc|]. split; [reflexivity|].
  eapply (Generate_master_returns (SymbolicBip.kw 7 2 5)
            (SymbolicBip.wallet SymbolicBip.master) CHAIN_EXT).
  - exact Hacc.
  - reflexivity.
  - reflexivity.
  - reflexivity.
  - reflexivity.
  - reflexivity.
  - reflexivity.
  - reflexivity.
Defined.

Lemma Generate_records_wrapped_key_witness :
  accepted (SymbolicBip.kw 0 1 (2 ^ 31))
  /\ fst (Generate (SymbolicBip.kw 0 1 (2 ^ 31))
            (SymbolicBip.wallet SymbolicBip.account_public))
     = inl (BipError SymbolicBip.Bip32KeyError)
  /\ GetData
       (snd (Generate (SymbolicBip.kw 0 1 (2 ^ 31))
               (SymbolicBip.wallet SymbolicBip.account_public)))
       (level_key
          (Level (m_bip_obj (SymbolicBip.wallet SymbolicBip.account_public))))
     = Some (VKeys
               (HdWalletBipKeys_new
                  (m_bip_obj (SymbolicBip.wallet SymbolicBip.account_public)))).
Proof.
  assert (Hacc : accepted (SymbolicBip.kw 0 1 (2 ^ 31))).
  { split; [exists CHAIN_EXT; reflexivity|]. vm_compute. intuition discriminate. }
  split; [exact Hacc|]. split; [reflexivity|].
  apply (Generate_records_wrapped_key (SymbolicBip.kw 0 1 (2 ^ 31))
           (SymbolicBip.wallet SymbolicBip.account_public)).
  - exact Hacc.
  - vm_compute. discriminate.
Defined.

Lemma Generate_records_indices_witness :
  arg_change_idx (SymbolicBip.kw 7 1 0) = ChangeMember CHAIN_EXT
  /\ (level_depth (Level (m_bip_obj (SymbolicBip.wallet SymbolicBip.master)))
      <= level_depth COIN ->
      GetData
        (snd (Generate (SymbolicBip.kw 7 1 0)
                (SymbolicBip.wallet SymbolicBip.master))) ACCOUNT_IDX
      = Some (VInt (arg_acc_idx (SymbolicBip.kw 7 1 0))))
  /\ (level_depth (Level (m_bip_obj (SymbolicBip.wallet SymbolicBip.master)))
      <= level_depth ACCOUNT ->
      GetData
        (snd (Generate (SymbolicBip.kw 7 1 0)
                (SymbolicBip.wallet SymbolicBip.master))) CHANGE_IDX
      = Some (VInt (int_of_change CHAIN_EXT))
      /\ (int_of_change CHAIN_EXT = 0 \/ int_of_change CHAIN_EXT = 1)).
Proof.
  split; [reflexivity|].
  apply (Generate_records_indices (SymbolicBip.kw 7 1 0)
           (SymbolicBip.wallet SymbolicBip.master) _ CHAIN_EXT).
  - reflexivity.
  - reflexivity.
Defined.

Lemma Generate_ignores_acc_idx_witness :
  level_depth ACCOUNT
  <= level_depth (Level (m_bip_obj (SymbolicBip.wallet SymbolicBip.account_public)))
  /\ Generate {| kw_acc_idx := Some 0; kw_change_idx := None;
                 kw_addr_num := Some 2; kw_addr_off := None |}
       (SymbolicBip.wallet SymbolicBip.account_public)
     = Generate {| kw_acc_idx := Some 9; kw_change_idx := None;
                   kw_addr_num := Some 2; kw_addr_off := None |}
         (SymbolicBip.wallet SymbolicBip.account_public).
Proof.
  split; [vm_compute; discriminate|].
  apply (Generate_ignores_acc_idx (Some 0) (Some 9) None (Some 2) None
           (SymbolicBip.wallet SymbolicBip.account_public)).
  vm_compute. discriminate.
Defined.

Lemma Generate_ignores_change_idx_witness :
  level_depth CHANGE
  <= level_depth (Level (m_bip_obj (SymbolicBip.wallet SymbolicBip.address_key)))
  /\ Generate {| kw_acc_idx := None;
                 kw_change_idx := Some (ChangeMember CHAIN_EXT);
                 kw_addr_num := None; kw_addr_off := None |}
       (SymbolicBip.wallet SymbolicBip.address_key)
     = Generate {| kw_acc_idx := None;
                   kw_change_idx := Some (ChangeMember CHAIN_INT);
                   kw_addr_num := None; kw_addr_off := None |}
         (SymbolicBip.wallet SymbolicBip.address_key).
Proof.
  split; [vm_compute; discriminate|].
  apply (Generate_ignores_change_idx None CHAIN_EXT CHAIN_INT None None
           (SymbolicBip.wallet SymbolicBip.address_key)).
  vm_compute. discriminate.
Defined.

Lemma Generate_indices_below_max_witness :
  level_depth (Level (m_bip_obj (SymbolicBip.wallet SymbolicBip.master)))
  <= level_depth CHANGE
  /\ exists idxs,
       address_indices
         (snd (Generate (SymbolicBip.kw 0 2 (2 ^ 32 - 3))
                 (SymbolicBip.wallet SymbolicBip.master)))
       = Some idxs
       /\ Forall (fun i => 0 <= i < KEY_INDEX_MAX_VAL) idxs.
Proof.
  split; [vm_compute; discriminate|].
  apply (Generate_indices_below_max (SymbolicBip.kw 0 2 (2 ^ 32 - 3))
           (SymbolicBip.wallet SymbolicBip.master)).
  - vm_compute. discriminate.
  - reflexivity.
Defined.

Lemma Generate_many_skips_rejected_witness :
  ~ accepted (SymbolicBip.kw 0 (-1) 0)
  /\ Generate_many
       ([SymbolicBip.kw 0 1 5] ++ SymbolicBip.kw 0 (-1) 0 :: [SymbolicBip.kw 0 2 0])
       (SymbolicBip.wallet SymbolicBip.master)
     = Generate_many ([SymbolicBip.kw 0 1 5] ++ [SymbolicBip.kw 0 2 0])
         (SymbolicBip.wallet SymbolicBip.master).
Proof.
  assert (Hna : ~ accepted (SymbolicBip.kw 0 (-1) 0)).
  { intros (_ & Hn & _). apply Hn. reflexivity. }
  split; [exact Hna|].
  apply (Generate_many_skips_rejected [SymbolicBip.kw 0 1 5]
           [SymbolicBip.kw 0 2 0] (SymbolicBip.kw 0 (-1) 0)
           (SymbolicBip.wallet SymbolicBip.master)).
  exact Hna.
Defined.

Lemma Generate_account_outcome_witness :
  accepted (SymbolicBip.kw 0 1 (2 ^ 31))
  /\ Level (m_bip_obj (SymbolicBip.wallet SymbolicBip.account_public)) = ACCOUNT
  /\ fst (Generate (SymbolicBip.kw 0 1 (2 ^ 31))
            (SymbolicBip.wallet SymbolicBip.account_public))
     = match Change (m_bip_obj (SymbolicBip.wallet SymbolicBip.account_public))
               CHAIN_EXT with
       | inl e => inl (BipError e)
       | inr change =>
           match HdWalletBipAddresses change
                   (arg_addr_num (SymbolicBip.kw 0 1 (2 ^ 31)))
                   (arg_addr_off (SymbolicBip.kw 0 1 (2 ^ 31))) with
           | inl e => inl (BipError e)
           | inr _ => inr tt
           end
       end.
Proof.
  assert (Hacc : accepted (SymbolicBip.kw 0 1 (2 ^ 31))).
  { split; [exists CHAIN_EXT; reflexivity|]. vm_compute. intuition discriminate. }
  split; [exact Hacc|]. split; [reflexivity|].
  apply (Generate_account_outcome (SymbolicBip.kw 0 1 (2 ^ 31))
           (SymbolicBip.wallet SymbolicBip.account_public) CHAIN_EXT).
  - exact Hacc.
  - reflexivity.
  - reflexivity.
Defined.
